(** * FlightScraper: the EasyJet collector of [main.py]

    A shallow embedding of [EasyJetCollector] and of the report printer of
    [main], followed by the properties of the collector that the
    specification states.

    Conventions of the embedding.
    - Python objects decoded from JSON are the inductive type [value];
      a [dict] is the list of its entries in insertion order, with one
      entry per key.
    - A [str] is the [string] of its UTF-8 bytes: its length in characters
      is [len], the number of bytes that start a character.  A [str] with
      a lone surrogate has no such [string].
    - Python [float]s computed by [calculate_distance] are idealised as real
      numbers: [math.sin], [math.cos], [math.sqrt] and [math.atan2] are the
      functions of the same names over [R], and [round(x, 2)] rounds to the
      nearest hundredth, ties to even.
    - A number read from JSON is the rational it denotes, an [int] of any
      size or the binary64 value of a [float], or [float('inf')];
      [float_of] is the conversion of [float(x)], to the nearest binary64
      value.
    - The network is an oracle answering the n-th request of a run; the
      collector runs in a monad that threads the log of exchanges and the
      standard output, and propagates Python exceptions.  [json()] raises
      the [JSONDecodeError] of [requests.exceptions], as [requests] does
      from version 2.27. *)

From Stdlib Require Import Reals Machin Lqa Lra Lia ZArith QArith Qabs.
From Stdlib Require Import String Ascii List Bool DecimalString DecimalN DecimalPos.
From Stdlib Require Import Qround Qpower Qfield.
From Stdlib Require Import Sorted Permutation.
Import ListNotations.

Set Warnings "-register-all".

Local Close Scope Q_scope.
Local Open Scope string_scope.
Local Open Scope list_scope.

(** ** Python values *)

Module Python.

(** A Python number: a finite number, given by its value, or
    [float('inf')]. *)
Inductive number : Type :=
| Fin (q : Q)
| Inf.

Inductive value : Type :=
| VNone
| VBool (b : bool)
| VNum (x : number)
| VStr (s : string)
| VList (items : list value)
| VDict (entries : list (string * value)).

(** The exceptions the builtin operations raise. *)
Inductive error : Type :=
| KeyError (key : string)
| TypeError
| AttributeError
| ValueError
| OverflowError.

(** The result of evaluating an expression without effects: a value, or a
    raised builtin exception. *)
Inductive result (A : Type) : Type :=
| Ok (a : A)
| Err (e : error).

Arguments Ok {A} a.
Arguments Err {A} e.

Definition Qlt_bool (a b : Q) : bool :=
  (Qnum a * QDen b <? Qnum b * QDen a)%Z.

(** The integer nearest to [q], ties to the even one. *)
Definition round_half_even_Q (q : Q) : Z :=
  let n := Qfloor q in
  match Qcompare (q - inject_Z n) (1 # 2) with
  | Lt => n
  | Gt => (n + 1)%Z
  | Eq => if Z.even n then n else (n + 1)%Z
  end.

(** The exponent of the power of two at or below [a], for a positive
    [a]. *)
Definition floor_log2 (a : Q) : Z :=
  if Qle_bool 1 a then Z.log2 (Qfloor a) else (- Z.log2_up (Qceiling (/ a)))%Z.

(** [float(x)] for a finite number: the nearest value with a mantissa of
    53 bits and an exponent not below -1074, ties to the even mantissa; a
    number that rounds past the largest binary64 value raises
    [OverflowError]. *)
Definition float_of (q : Q) : result Q :=
  if Qeq_bool q 0 then Ok 0%Q
  else
    let a := Qabs q in
    let e := Z.max (floor_log2 a - 52) (-1074) in
    let m := round_half_even_Q (a / 2 ^ e)%Q in
    let v := (inject_Z m * 2 ^ e)%Q in
    if Qle_bool (2 ^ 1024)%Q v then Err OverflowError
    else Ok (Qred (if Qlt_bool q 0 then (- v)%Q else v)).

Definition number_lt (x y : number) : bool :=
  match x, y with
  | Fin a, Fin b => Qlt_bool a b
  | Fin _, Inf => true
  | Inf, _ => false
  end.

Definition number_eq (x y : number) : bool :=
  match x, y with
  | Fin a, Fin b => Qeq_bool a b
  | Inf, Inf => true
  | _, _ => false
  end.

Definition number_le (x y : number) : bool := negb (number_lt y x).

(** [bool] is a subclass of [int]: [True] and [False] order as 1 and 0. *)
Definition as_number (v : value) : option number :=
  match v with
  | VNum x => Some x
  | VBool true => Some (Fin 1)
  | VBool false => Some (Fin 0)
  | _ => None
  end.

(** [d.get(key)] on the entries of a dict. *)
Fixpoint lookup {A : Type} (key : string) (entries : list (string * A)) : option A :=
  match entries with
  | [] => None
  | (k, v) :: rest => if String.eqb k key then Some v else lookup key rest
  end.

(** [bool(v)], as tested by [if flights:]. *)
Definition truthy (v : value) : bool :=
  match v with
  | VNone => false
  | VBool b => b
  | VNum (Fin q) => negb (Qeq_bool q 0)
  | VNum Inf => true
  | VStr s => negb (String.eqb s "")
  | VList items => match items with [] => false | _ :: _ => true end
  | VDict entries => match entries with [] => false | _ :: _ => true end
  end.

(** A byte that continues a character of several bytes: [10xxxxxx]. *)
Definition continuation_byte (c : ascii) : bool :=
  match c with
  | Ascii _ _ _ _ _ _ false true => true
  | _ => false
  end.

(** [len(s)]: the number of characters. *)
Fixpoint len (s : string) : nat :=
  match s with
  | EmptyString => O
  | String c rest => if continuation_byte c then len rest else S (len rest)
  end.

(** The characters of [s], each with its continuation bytes; the first
    component collects continuation bytes that no character precedes. *)
Fixpoint split_chars (s : string) : string * list string :=
  match s with
  | EmptyString => (EmptyString, [])
  | String c rest =>
      let (pending, cs) := split_chars rest in
      if continuation_byte c then (String c pending, cs)
      else (EmptyString, String c pending :: cs)
  end.

Definition chars (s : string) : list value :=
  let (pending, cs) := split_chars s in
  map VStr match pending with
           | EmptyString => cs
           | _ => pending :: cs
           end.

(** [iter(v)], run to the end: the elements a [for] loop or a generator
    expression visits. *)
Definition iterate (v : value) : result (list value) :=
  match v with
  | VList items => Ok items
  | VDict entries => Ok (map (fun kv => VStr (fst kv)) entries)
  | VStr s => Ok (chars s)
  | VNone | VBool _ | VNum _ => Err TypeError
  end.

(** [v.get(key, default)]: only a dict has the method. *)
Definition dict_get (v : value) (key : string) (default : value) : result value :=
  match v with
  | VDict entries =>
      match lookup key entries with
      | Some x => Ok x
      | None => Ok default
      end
  | _ => Err AttributeError
  end.

(** [v[key]] with a string key. *)
Definition subscript (v : value) (key : string) : result value :=
  match v with
  | VDict entries =>
      match lookup key entries with
      | Some x => Ok x
      | None => Err (KeyError key)
      end
  | _ => Err TypeError
  end.

(** [a == b]. *)
Fixpoint py_eq (a b : value) : bool :=
  match a, b with
  | VNone, VNone => true
  | VStr s, VStr t => String.eqb s t
  | VList xs, VList ys =>
      (fix all2 (xs ys : list value) : bool :=
         match xs, ys with
         | [], [] => true
         | x :: xs', y :: ys' => py_eq x y && all2 xs' ys'
         | _, _ => false
         end) xs ys
  | VDict ea, VDict eb =>
      (fix sub (ea : list (string * value)) : bool :=
         match ea with
         | [] => true
         | (k, v) :: ea' =>
             match lookup k eb with
             | Some w => py_eq v w && sub ea'
             | None => false
             end
         end) ea
      && Nat.eqb (length ea) (length eb)
  | _, _ =>
      match as_number a, as_number b with
      | Some x, Some y => number_eq x y
      | _, _ => false
      end
  end.

(** [a < b]: numbers order numerically, strings and lists
    lexicographically, any other pair raises [TypeError]. *)
Fixpoint py_lt (a b : value) : result bool :=
  match a, b with
  | VStr s, VStr t => Ok (String.ltb s t)
  | VList xs, VList ys =>
      (fix lex (xs ys : list value) : result bool :=
         match xs, ys with
         | x :: xs', y :: ys' => if py_eq x y then lex xs' ys' else py_lt x y
         | [], _ :: _ => Ok true
         | _, [] => Ok false
         end) xs ys
  | _, _ =>
      match as_number a, as_number b with
      | Some x, Some y => Ok (number_lt x y)
      | _, _ => Err TypeError
      end
  end.

End Python.

Import Python.

(** ** The collector's effects: HTTP exchanges, standard output, exceptions *)

Module Effects.

(** The arguments of one [requests.get(url, headers=..., params=...)]. *)
Record request : Type := mkRequest {
  url : string;
  headers : list (string * string);
  params : list (string * value)
}.

(** The body of a response: a JSON document, decoded, or a text that is
    not JSON, with the message of the [JSONDecodeError] that [json()] raises
    on it. *)
Inductive payload : Type :=
| Json (v : value)
| NotJson (msg : string).

(** What [requests.get] hands back: the status code, the message of the
    [HTTPError] that [raise_for_status] makes of the status line, and the
    body. *)
Record response : Type := mkResponse {
  status_code : Z;
  status_text : string;
  body : payload
}.

(** [raise_for_status] raises on the codes from 400 to 599 and on no
    other. *)
Definition status_error (r : response) : option string :=
  if ((400 <=? status_code r) && (status_code r <? 600))%Z
  then Some (status_text r)
  else None.

(** How a request ends: [requests.get] raises a [RequestException]
    (the connection failed, or timed out), or it returns a response. *)
Inductive reply : Type :=
| ConnectionFailed (msg : string)
| Answered (r : response).

(** The exceptions of a run: those of [requests] (all are subclasses of
    [requests.exceptions.RequestException]) and the builtin ones. *)
Inductive exn : Type :=
| RequestException (msg : string)
| BuiltinError (e : error).

(** How a computation ends. *)
Inductive outcome (A : Type) : Type :=
| Ret (a : A)
| Raise (e : exn).

Arguments Ret {A} a.
Arguments Raise {A} e.

(** The network answers the n-th request of a run. *)
Definition network : Type := nat -> request -> reply.

Record world : Type := mkWorld {
  exchanges : list (request * reply);   (* requests made so far, oldest first *)
  stdout : list string;                 (* lines printed so far, oldest first *)
  files : list (string * string)        (* the files written, by name *)
}.

Definition initial : world := mkWorld [] [] [].

(** A computation reads the network, updates the world and ends in a value
    or an exception; the world it leaves is kept in both cases. *)
Definition M (A : Type) : Type := network -> world -> outcome A * world.

Definition ret {A : Type} (a : A) : M A := fun _ w => (Ret a, w).

Definition raise {A : Type} (e : exn) : M A := fun _ w => (Raise e, w).

Definition bind {A B : Type} (c : M A) (k : A -> M B) : M B :=
  fun net w =>
    match c net w with
    | (Ret a, w') => k a net w'
    | (Raise e, w') => (Raise e, w')
    end.

(** An expression without effects, evaluated inside a computation. *)
Definition lift {A : Type} (r : result A) : M A :=
  match r with
  | Ok a => ret a
  | Err e => raise (BuiltinError e)
  end.

(** [try: c  except requests.exceptions.RequestException as e: h e]. *)
Definition try_except_RequestException {A : Type} (c : M A) (h : string -> M A) : M A :=
  fun net w =>
    match c net w with
    | (Raise (RequestException msg), w') => h msg net w'
    | r => r
    end.

Definition print (line : string) : M unit :=
  fun _ w => (Ret tt, mkWorld (exchanges w) (stdout w ++ [line]) (files w)).

Definition requests_get (rq : request) : M response :=
  fun net w =>
    let rp := net (length (exchanges w)) rq in
    let w' := mkWorld (exchanges w ++ [(rq, rp)]) (stdout w) (files w) in
    match rp with
    | ConnectionFailed msg => (Raise (RequestException msg), w')
    | Answered r => (Ret r, w')
    end.

Definition raise_for_status (r : response) : M unit :=
  match status_error r with
  | Some msg => raise (RequestException msg)
  | None => ret tt
  end.

(** [response.json()]: the decoded document, or the [JSONDecodeError] of
    [requests.exceptions], a [RequestException]. *)
Definition json (r : response) : M value :=
  match body r with
  | Json v => ret v
  | NotJson msg => raise (RequestException msg)
  end.

(** The text of the file [name], if it was written. *)
Definition file_content (name : string) (w : world) : option string :=
  lookup name (files w).

Fixpoint set_file (name text : string) (fs : list (string * string)) : list (string * string) :=
  match fs with
  | [] => [(name, text)]
  | (n, t) :: rest =>
      if String.eqb n name then (n, text) :: rest else (n, t) :: set_file name text rest
  end.

(** [open(name, 'w', newline='')]: the file is created or emptied; the
    handle is the name. *)
Definition open_w (name : string) : M string :=
  fun _ w => (Ret name, mkWorld (exchanges w) (stdout w) (set_file name "" (files w))).

(** [file.write(text)] appends to the open file. *)
Definition write (file text : string) : M unit :=
  fun _ w =>
    let old := match file_content file w with Some t => t | None => "" end in
    (Ret tt, mkWorld (exchanges w) (stdout w) (set_file file (old ++ text)%string (files w))).

(** The message of the [RequestException] that the code run on a reply
    raises: [requests.get] when the connection failed, [raise_for_status]
    on an error status, [json()] on a body that is not JSON. *)
Definition failure_message (rp : reply) : option string :=
  match rp with
  | ConnectionFailed msg => Some msg
  | Answered r =>
      match status_error r with
      | Some msg => Some msg
      | None =>
          match body r with
          | NotJson msg => Some msg
          | Json _ => None
          end
      end
  end.

(** A request failed: a [RequestException] is raised on its reply. *)
Definition failed (rp : reply) : bool :=
  match failure_message rp with
  | Some _ => true
  | None => false
  end.

End Effects.

Import Effects.

Declare Scope py_scope.
Delimit Scope py_scope with py.
Notation "x <- c ;; k" := (bind c (fun x => k))
  (at level 61, c at next level, right associativity) : py_scope.
Notation "c ;;; k" := (bind c (fun _ => k))
  (at level 61, right associativity) : py_scope.

(** ** Floating-point helpers of [math] and the builtins, over the reals *)

Module Float.

Local Open Scope R_scope.

(** [math.radians]. *)
Definition radians (x : R) : R := x * (PI / 180).

(** [math.atan2(y, x)]: the angle of the point (x, y), in (-pi, pi]. *)
Definition atan2 (y x : R) : R :=
  if Rlt_dec 0 x then atan (y / x)
  else if Rlt_dec x 0 then
    if Rle_dec 0 y then atan (y / x) + PI else atan (y / x) - PI
  else if Rlt_dec 0 y then PI / 2
  else if Rlt_dec y 0 then - (PI / 2)
  else 0.

(** The integer nearest to [x], ties to the even one. *)
Definition round_half_even (x : R) : Z :=
  let n := Int_part x in
  let f := frac_part x in
  if Rlt_dec f (1 / 2) then n
  else if Rlt_dec (1 / 2) f then (n + 1)%Z
  else if Z.even n then n else (n + 1)%Z.

(** [round(x, ndigits)]. *)
Definition round (x : R) (ndigits : nat) : R :=
  IZR (round_half_even (x * 10 ^ ndigits)) / 10 ^ ndigits.

End Float.

Import Float.

(** ** [class EasyJetCollector] *)

Module EasyJetCollector.

Record t : Type := mk {
  base_url : string;
  headers : list (string * string);
  airport_coords : list (string * (R * R))
}.

(** One row of the result: [[distance, destination, lowest_price]]. *)
Definition row : Type := (R * value * value)%type.

Definition _load_airport_coordinates : list (string * (R * R)) :=
  [ ("LGW", (51.1537, -0.1821)%R);
    ("BCN", (41.2974, 2.0833)%R);
    ("CDG", (49.0097, 2.5479)%R) ].

Definition __init__ (api_key client_id : string) : t :=
  mk "https://api.easyjet.com/v1"
     [ ("Authorization", ("Bearer " ++ api_key)%string);
       ("X-Client-ID", client_id);
       ("Accept", "application/json") ]
     _load_airport_coordinates.

(** [code in self.airport_coords]. *)
Definition known (self : t) (code : string) : bool :=
  match lookup code (airport_coords self) with
  | Some _ => true
  | None => false
  end.

Definition calculate_distance (self : t) (origin destination : string) : R :=
  match lookup origin (airport_coords self),
        lookup destination (airport_coords self) with
  | Some (lat1, lon1), Some (lat2, lon2) =>
      let R := 6371%R in
      let lat1 := radians lat1 in
      let lon1 := radians lon1 in
      let lat2 := radians lat2 in
      let lon2 := radians lon2 in
      let dlat := (lat2 - lat1)%R in
      let dlon := (lon2 - lon1)%R in
      let a := (sin (dlat / 2) ^ 2 + cos lat1 * cos lat2 * sin (dlon / 2) ^ 2)%R in
      let c := (2 * atan2 (sqrt a) (sqrt (1 - a)))%R in
      let distance := (R * c)%R in
      round distance 2
  | _, _ => 0%R
  end.

(** The call [self.calculate_distance(origin_airport, destination)] of
    [get_all_flights], where [destination] is whatever [route['destination']]
    decoded to.  The [in] tests hash their key: a list or a dict raises
    [TypeError] once the first test has found the origin; any other value
    that is not a string is simply absent from the table. *)
Definition distance_to (self : t) (origin : string) (destination : value) : result R :=
  match destination with
  | VStr d => Ok (calculate_distance self origin d)
  | VList _ | VDict _ => if known self origin then Err TypeError else Ok 0%R
  | VNone | VBool _ | VNum _ => Ok 0%R
  end.

(** [flight.get('pricing', {}).get('lowestFare', float('inf'))]. *)
Definition fare (flight : value) : result value :=
  match dict_get flight "pricing" (VDict []) with
  | Ok pricing => dict_get pricing "lowestFare" (VNum Inf)
  | Err e => Err e
  end.

(** The loop of [min] over the generator: each fare is computed when the
    generator is advanced, and replaces the current minimum when it is
    strictly below it. *)
Fixpoint min_from (current : value) (rest : list value) : result value :=
  match rest with
  | [] => Ok current
  | flight :: rest' =>
      match fare flight with
      | Err e => Err e
      | Ok item =>
          match py_lt item current with
          | Err e => Err e
          | Ok true => min_from item rest'
          | Ok false => min_from current rest'
          end
      end
  end.

(** [min(flight.get(...).get(...) for flight in flights)]. *)
Definition lowest_fare (flights : value) : result value :=
  match iterate flights with
  | Err e => Err e
  | Ok [] => Err ValueError
  | Ok (flight :: rest) =>
      match fare flight with
      | Err e => Err e
      | Ok first => min_from first rest
      end
  end.

Definition routes_request (self : t) (origin_airport : string) : request :=
  mkRequest (base_url self ++ "/routes")%string (headers self)
            [ ("departure", VStr origin_airport) ].

Definition flights_request (self : t) (origin_airport : string)
    (destination : value) (date : string) : request :=
  mkRequest (base_url self ++ "/flights")%string (headers self)
            [ ("origin", VStr origin_airport);
              ("destination", destination);
              ("outboundDate", VStr date);
              ("adult", VNum (Fin 1)) ].

Local Open Scope py_scope.

(** The [for route in all_destinations] loop, with [flight_data] as
    accumulated so far. *)
Fixpoint for_route (self : t) (origin_airport date : string)
    (all_destinations : list value) (flight_data : list row) : M (list row) :=
  match all_destinations with
  | [] => ret flight_data
  | route :: rest =>
      destination <- lift (subscript route "destination") ;;
      flight_response <-
        requests_get (flights_request self origin_airport destination date) ;;
      raise_for_status flight_response ;;;
      flight_json <- json flight_response ;;
      flights <- lift (dict_get flight_json "flights" (VList [])) ;;
      if truthy flights then
        lowest_price <- lift (lowest_fare flights) ;;
        distance <- lift (distance_to self origin_airport destination) ;;
        for_route self origin_airport date rest
                  (flight_data ++ [(distance, destination, lowest_price)])
      else
        for_route self origin_airport date rest flight_data
  end.

(** The body of the [try] block of [get_all_flights]. *)
Definition get_all_flights_try (self : t) (origin_airport date : string) : M (list row) :=
  response <- requests_get (routes_request self origin_airport) ;;
  raise_for_status response ;;;
  routes_json <- json response ;;
  all_destinations <- lift (dict_get routes_json "routes" (VList [])) ;;
  routes <- lift (iterate all_destinations) ;;
  for_route self origin_airport date routes [].

Definition get_all_flights (self : t) (origin_airport date : string) : M (list row) :=
  try_except_RequestException
    (get_all_flights_try self origin_airport date)
    (fun e =>
       print ("Error fetching flight data: " ++ e)%string ;;;
       ret []).

End EasyJetCollector.

(** ** The report: [save_to_csv] and the table printed by [main] *)

Module Report.

Import EasyJetCollector.

(** A cell handed to [csv.writer]: the distance is a float, the other two
    are what the collector took from the JSON documents. *)
Inductive cell : Type :=
| CFloat (x : R)
| CVal (v : value).

Definition cells (r : row) : list cell :=
  match r with
  | (distance, destination, lowest_price) =>
      [CFloat distance; CVal destination; CVal lowest_price]
  end.

Definition comma : ascii := ","%char.
Definition quotechar : ascii := "034"%char.
Definition CR : ascii := "013"%char.
Definition LF : ascii := "010"%char.
Definition lineterminator : string := String CR (String LF EmptyString).

Fixpoint needs_quotes (s : string) : bool :=
  match s with
  | EmptyString => false
  | String c rest =>
      Ascii.eqb c comma || Ascii.eqb c quotechar || Ascii.eqb c CR || Ascii.eqb c LF
      || needs_quotes rest
  end.

Fixpoint double_quotes (s : string) : string :=
  match s with
  | EmptyString => EmptyString
  | String c rest =>
      if Ascii.eqb c quotechar
      then String c (String c (double_quotes rest))
      else String c (double_quotes rest)
  end.

(** One field under [QUOTE_MINIMAL]; [alone] tells a field that is the only
    one of its row, which is quoted when empty. *)
Definition csv_field (alone : bool) (s : string) : string :=
  if needs_quotes s || (alone && String.eqb s "")
  then (String quotechar (double_quotes s) ++ String quotechar EmptyString)%string
  else s.

Fixpoint join (sep : string) (fields : list string) : string :=
  match fields with
  | [] => EmptyString
  | [f] => f
  | f :: rest => (f ++ sep ++ join sep rest)%string
  end.

Definition header : list cell :=
  [CVal (VStr "Distance (km)"); CVal (VStr "Destination"); CVal (VStr "Lowest Price")].

(** *** The console table *)

Fixpoint spaces (n : nat) : string :=
  match n with
  | O => EmptyString
  | S n' => String " " (spaces n')
  end.

(** Alignment in a field of minimal width, counted in characters: the
    text is never cut. *)
Definition rjust (width : nat) (s : string) : string :=
  (spaces (width - len s) ++ s)%string.

Definition ljust (width : nat) (s : string) : string :=
  (s ++ spaces (width - len s))%string.

Definition decimal (n : Z) : string :=
  NilZero.string_of_uint (N.to_uint (Z.to_N n)).

Definition two_digits (n : Z) : string :=
  (decimal (n / 10) ++ decimal (n mod 10))%string.

(** A sign, the whole part, the point and two decimals, from a count of
    hundredths. *)
Definition fixed2 (negative : bool) (hundredths : Z) : string :=
  ((if negative then "-" else "")
   ++ decimal (hundredths / 100) ++ "." ++ two_digits (hundredths mod 100))%string.

(** [format(x, '.2f')] for a float. *)
Definition float_2f (x : R) : string :=
  fixed2 (if Rlt_dec x 0 then true else false)
         (Z.abs (round_half_even (x * 100))).

(** [format(x, '.2f')] for a number read from JSON, or [float('inf')]: an
    [int] is converted to a [float] first. *)
Definition number_2f (x : number) : result string :=
  match x with
  | Fin q =>
      match float_of q with
      | Ok y => Ok (fixed2 (Qlt_bool q 0) (Z.abs (round_half_even_Q (y * 100))))
      | Err e => Err e
      end
  | Inf => Ok "inf"
  end.

(** [format(price, '5.2f')]: only numbers accept the format. *)
Definition format_price (price : value) : result string :=
  match price with
  | VStr _ => Err ValueError
  | _ =>
      match as_number price with
      | Some x =>
          match number_2f x with
          | Ok text => Ok (rjust 5 text)
          | Err e => Err e
          end
      | None => Err TypeError
      end
  end.

Section Writer.

(** [str(x)] for the cells that are not strings: the digits Python prints
    for a float, and the text of any other object. *)
Variable str_float : R -> string.
Variable str_value : value -> string.

(** The text [csv.writer] makes of a cell. *)
Definition field_text (c : cell) : string :=
  match c with
  | CFloat x => str_float x
  | CVal VNone => ""
  | CVal (VStr s) => s
  | CVal v => str_value v
  end.

(** The line [writer.writerow(r)] writes. *)
Definition csv_line (r : list cell) : string :=
  (join "," (map (fun c => csv_field (Nat.eqb (length r) 1) (field_text c)) r)
   ++ lineterminator)%string.

Definition writerow (file : string) (r : list cell) : M unit :=
  write file (csv_line r).

Local Open Scope py_scope.

Fixpoint writerows (file : string) (data : list (list cell)) : M unit :=
  match data with
  | [] => ret tt
  | r :: rest => writerow file r ;;; writerows file rest
  end.

Definition save_to_csv (data : list (list cell)) (filename : string) : M unit :=
  file <- open_w filename ;;
  writerow file header ;;;
  writerows file data.

(** [format(destination, '11')]: a string is aligned to the left, a number
    to the right, in a field of minimal width 11; the other objects do not
    accept a format. *)
Definition format_destination (destination : value) : result string :=
  match destination with
  | VStr s => Ok (ljust 11 s)
  | VBool b => Ok (rjust 11 (if b then "1" else "0"))
  | VNum _ => Ok (rjust 11 (str_value destination))
  | VNone | VList _ | VDict _ => Err TypeError
  end.

(** The line [f"{distance:11.2f} | {destination:11} | {price:5.2f}"] of
    [main]; the fields are formatted from left to right. *)
Definition table_line (distance : R) (destination price : value) : result string :=
  match format_destination destination with
  | Err e => Err e
  | Ok d =>
      match format_price price with
      | Err e => Err e
      | Ok p => Ok (rjust 11 (float_2f distance) ++ " | " ++ d ++ " | " ++ p)%string
      end
  end.

(** The loop [for distance, destination, price in flights: print(...)]. *)
Fixpoint print_rows (flights : list row) : M unit :=
  match flights with
  | [] => ret tt
  | (distance, destination, price) :: rest =>
      line <- lift (table_line distance destination price) ;;
      print line ;;;
      print_rows rest
  end.

(** [flights.sort(key=lambda x: x[0])]: the sort is stable, a row goes
    after the rows already placed whose distance is not larger. *)
Fixpoint insert (r : row) (sorted : list row) : list row :=
  match sorted with
  | [] => [r]
  | s :: rest =>
      if Rlt_dec (fst (fst r)) (fst (fst s)) then r :: s :: rest
      else s :: insert r rest
  end.

Definition sort_by_distance (flights : list row) : list row :=
  fold_left (fun sorted r => insert r sorted) flights [].

Fixpoint dashes (n : nat) : string :=
  match n with
  | O => EmptyString
  | S n' => String "-" (dashes n')
  end.

Definition API_KEY : string := "your_api_key_here".
Definition CLIENT_ID : string := "your_client_id_here".

Definition main : M unit :=
  let collector := __init__ API_KEY CLIENT_ID in
  flights <- get_all_flights collector "LGW" "2024-12-01" ;;
  let flights := sort_by_distance flights in
  save_to_csv (map cells flights) "easyjet_flights.csv" ;;;
  print "Flights found:" ;;;
  print "Distance (km) | Destination | Price" ;;;
  print (dashes 40) ;;;
  print_rows flights.

End Writer.

End Report.

Import EasyJetCollector Report.

(** ** Vocabulary of the specification *)

(** The collector of [main]. *)
Definition collector : EasyJetCollector.t := __init__ API_KEY CLIENT_ID.

(** The exchanges a computation added to the log of [w], given the world
    [w'] it left. *)
Definition made (w w' : world) : list (request * reply) :=
  skipn (length (exchanges w)) (exchanges w').

(** The route records the routes endpoint returned to request number [k]. *)
Definition routes_of (self : EasyJetCollector.t) (origin_airport : string)
    (net : network) (k : nat) : list value :=
  match net k (routes_request self origin_airport) with
  | Answered r =>
      match body r with
      | Json routes_json =>
          match dict_get routes_json "routes" (VList []) with
          | Ok v => match iterate v with Ok l => l | Err _ => [] end
          | Err _ => []
          end
      | NotJson _ => []
      end
  | ConnectionFailed _ => []
  end.

(** The destination a route record names. *)
Definition destination_of (route : value) : value :=
  match subscript route "destination" with
  | Ok d => d
  | Err _ => VNone
  end.

(** A route record without a ['destination'] field. *)
Definition lacks_destination (route : value) : Prop :=
  exists entries, route = VDict entries /\ lookup "destination" entries = None.

(** The flights list that request number [k], made for [route], returned. *)
Definition flights_of (self : EasyJetCollector.t) (origin_airport date : string)
    (net : network) (k : nat) (route : value) : value :=
  match net k (flights_request self origin_airport (destination_of route) date) with
  | Answered r =>
      match body r with
      | Json flight_json =>
          match dict_get flight_json "flights" (VList []) with
          | Ok v => v
          | Err _ => VList []
          end
      | NotJson _ => VList []
      end
  | ConnectionFailed _ => VList []
  end.

(** The routes paired with the number of the request made for each, the
    first one being request [k]. *)
Definition numbered (k : nat) (routes : list value) : list (nat * value) :=
  combine (seq k (length routes)) routes.

Definition is_empty_list (v : value) : bool :=
  match v with
  | VList [] => true
  | _ => false
  end.

(** The fare a flight record quotes, in the words of the specification: its
    [pricing.lowestFare] number, and the infinite sentinel when [pricing]
    or [lowestFare] is missing.  [None] for a record of another shape. *)
Definition quoted_fare (flight : value) : option number :=
  match flight with
  | VDict entries =>
      match lookup "pricing" entries with
      | None => Some Inf
      | Some (VDict pricing) =>
          match lookup "lowestFare" pricing with
          | None => Some Inf
          | Some (VNum x) => Some x
          | Some _ => None
          end
      | Some _ => None
      end
  | _ => None
  end.

(** [m] is a minimum of the fares [xs]. *)
Definition is_minimum (m : number) (xs : list number) : Prop :=
  In m xs /\ forall x, In x xs -> number_le m x = true.

(** The fares that are not the infinite sentinel. *)
Definition finite_fares (xs : list number) : list number :=
  filter (fun x => match x with Fin _ => true | Inf => false end) xs.

(** The row the collector makes for [route] when request number [k] is the
    flights request made for it. *)
Definition expected_row (self : EasyJetCollector.t) (origin_airport date : string)
    (net : network) (k : nat) (route : value) : row :=
  (match distance_to self origin_airport (destination_of route) with
   | Ok x => x
   | Err _ => 0%R
   end,
   destination_of route,
   match lowest_fare (flights_of self origin_airport date net k route) with
   | Ok p => p
   | Err _ => VNone
   end).

(** The destination and the price of a row. *)
Definition row_destination (r : row) : value := snd (fst r).
Definition row_price (r : row) : value := snd r.

(** No exchange of the list failed: every request was answered, with a
    status that is not an error and a body that is JSON. *)
Definition all_answered (l : list (request * reply)) : Prop :=
  Forall (fun x => failed (snd x) = false) l.

(** The world after request [rq] was answered by [rp]. *)
Definition logged (w : world) (rq : request) (rp : reply) : world :=
  mkWorld (exchanges w ++ [(rq, rp)]) (stdout w) (files w).

(** The numbered route [kr] got a flights list that passes [if flights:]. *)
Definition has_flights (self : EasyJetCollector.t) (origin_airport date : string)
    (net : network) (kr : nat * value) : bool :=
  truthy (flights_of self origin_airport date net (fst kr) (snd kr)).

Definition row_for (self : EasyJetCollector.t) (origin_airport date : string)
    (net : network) (kr : nat * value) : row :=
  expected_row self origin_airport date net (fst kr) (snd kr).

(** What a run of the loop over [routes] leaves, by the way it ends: the
    rows, when it returns; a failed exchange, the last one, when a request
    raised; otherwise only answered exchanges. *)
Definition loop_result (self : EasyJetCollector.t) (origin_airport date : string)
    (net : network) (routes : list value) (flight_data : list row)
    (w : world) (res : outcome (list row)) (new : list (request * reply)) : Prop :=
  match res with
  | Ret rows =>
      all_answered new /\ length new = length routes /\
      Forall (fun route => exists d, subscript route "destination" = Ok d) routes /\
      rows = flight_data ++
             map (row_for self origin_airport date net)
                 (filter (has_flights self origin_airport date net)
                         (numbered (length (exchanges w)) routes))
  | Raise (RequestException _) =>
      exists front rq rp, new = front ++ [(rq, rp)] /\ failed rp = true /\ all_answered front
  | Raise (BuiltinError _) => all_answered new
  end.

(** The text of a file made of the given lines, each with its end of
    line. *)
Definition text_of (lines : list string) : string :=
  fold_right String.append EmptyString lines.

(** *** Further vocabulary *)

(** The flights request made for the numbered route [kr], with its answer. *)
Definition flights_exchange (self : EasyJetCollector.t) (origin_airport date : string)
    (net : network) (kr : nat * value) : request * reply :=
  let rq := flights_request self origin_airport (destination_of (snd kr)) date in
  (rq, net (fst kr) rq).

(** The distance of a row, the key of the sort of [main]. *)
Definition row_distance (r : row) : R := fst (fst r).

(** Rows in ascending order of distance. *)
Definition ascending (rows : list row) : Prop :=
  StronglySorted (fun r s => (row_distance r <= row_distance s)%R) rows.

(** The rows of [rows] whose distance is [d], in their order. *)
Definition at_distance (d : R) (rows : list row) : list row :=
  filter (fun r => if Req_dec_T (row_distance r) d then true else false) rows.

(** The line of the table for a row, empty when the row cannot be
    formatted. *)
Definition printed_line (str_value : value -> string) (r : row) : string :=
  match table_line str_value (row_distance r) (row_destination r) (row_price r) with
  | Ok line => line
  | Err _ => EmptyString
  end.

(** [n] spaces. *)
Definition padding (n : nat) : string := string_of_list_ascii (repeat " "%char n).

(** The number that a text made of decimal digits denotes. *)
Definition digits_value (s : string) : option Z :=
  option_map Z.of_uint (NilZero.uint_of_string s).

(** The three lines [main] prints above the table. *)
Definition table_heading : list string :=
  ["Flights found:"; "Distance (km) | Destination | Price"; dashes 40].

(** *** Sample answers of the API *)

(** A [200 OK] answer with a JSON body. *)
Definition answer (v : value) : reply := Answered (mkResponse 200 "OK" (Json v)).

Definition route_to (code : string) : value := VDict [("destination", VStr code)].

Definition routes_body (routes : list value) : value := VDict [("routes", VList routes)].

Definition flight_at (fare : Q) : value :=
  VDict [("pricing", VDict [("lowestFare", VNum (Fin fare))])].

Definition flights_body (flights : list value) : value := VDict [("flights", VList flights)].

(** Two routes; the flights request for the second one does not get
    through. *)
Definition net_fails_late : network :=
  fun n _ =>
    match n with
    | O => answer (routes_body [route_to "BCN"; route_to "CDG"])
    | S O => answer (flights_body [flight_at 80%Q])
    | _ => ConnectionFailed "connection reset"
    end.

Definition net_sample : network :=
  fun n _ =>
    match n with
    | O => answer (routes_body [route_to "BCN"; route_to "CDG"])
    | S O => answer (flights_body [flight_at 120%Q; VDict []; flight_at 80%Q])
    | S (S O) => answer (flights_body [])
    | _ => ConnectionFailed "no such request"
    end.

Definition net_fails_before_bad_route : network :=
  fun n _ =>
    match n with
    | O => answer (routes_body [route_to "BCN"; VDict []])
    | _ => ConnectionFailed "connection reset"
    end.

Definition net_bad_route : network :=
  fun n _ =>
    match n with
    | O => answer (routes_body [route_to "BCN"; VDict [("origin", VStr "LGW")]; route_to "CDG"])
    | S O => answer (flights_body [flight_at 80%Q])
    | _ => answer (flights_body [])
    end.

(** The routes request is answered [304], with a body that lists one
    route. *)
Definition net_not_modified : network :=
  fun n _ =>
    match n with
    | O => Answered (mkResponse 304 "Not Modified" (Json (routes_body [route_to "BCN"])))
    | _ => answer (flights_body [flight_at 80%Q])
    end.

(** Two routes; the flights of the second one are [null]. *)
Definition net_null_flights : network :=
  fun n _ =>
    match n with
    | O => answer (routes_body [route_to "BCN"; route_to "CDG"])
    | S O => answer (flights_body [flight_at 80%Q])
    | _ => answer (VDict [("flights", VNone)])
    end.

(** A routes endpoint that answers with an empty object. *)
Definition net_no_routes : network := fun _ _ => answer (VDict []).

(** ** The distance calculator *)

Section Distance.

Local Open Scope R_scope.

Lemma round_half_even_IZR (n : Z) : round_half_even (IZR n) = n.
Proof.
  unfold round_half_even.
  assert (Hn : Int_part (IZR n) = n).
  { symmetry. apply Int_part_spec. lra. }
  assert (Hf : frac_part (IZR n) = 0).
  { unfold frac_part. rewrite Hn. lra. }
  rewrite Hf, Hn.
  destruct (Rlt_dec 0 (1 / 2)) as [_ | H]; [reflexivity | exfalso; lra].
Qed.

Lemma round_0 (ndigits : nat) : round 0 ndigits = 0.
Proof.
  unfold round. rewrite Rmult_0_l, round_half_even_IZR.
  unfold Rdiv. apply Rmult_0_l.
Qed.

Lemma atan2_0_1 : atan2 0 1 = 0.
Proof.
  unfold atan2. destruct (Rlt_dec 0 1) as [_ | H]; [| exfalso; lra].
  replace (0 / 1) with 0 by lra. apply atan_0.
Qed.

Lemma known_lookup (self : EasyJetCollector.t) (code : string) :
  known self code = true ->
  exists lat lon, lookup code (airport_coords self) = Some (lat, lon).
Proof.
  unfold known. destruct (lookup code (airport_coords self)) as [[lat lon] |].
  - intros _. exists lat, lon. reflexivity.
  - discriminate.
Qed.

Lemma unknown_lookup (self : EasyJetCollector.t) (code : string) :
  known self code = false -> lookup code (airport_coords self) = None.
Proof.
  unfold known. destruct (lookup code (airport_coords self)); [discriminate | reflexivity].
Qed.

(** C2. When the origin or the destination is not a key of the coordinate
    table, [calculate_distance] returns exactly 0.0, whatever the other
    argument is. *)
Theorem calculate_distance_unknown (self : EasyJetCollector.t) (origin destination : string) :
  known self origin = false \/ known self destination = false ->
  calculate_distance self origin destination = 0.
Proof.
  intros [H | H]; apply unknown_lookup in H; unfold calculate_distance; rewrite H.
  - reflexivity.
  - destruct (lookup origin (airport_coords self)) as [[lat1 lon1] |]; reflexivity.
Qed.

Lemma calculate_distance_unknown_witness :
  known collector "XXX" = false /\
  calculate_distance collector "XXX" "BCN" = 0 /\
  calculate_distance collector "LGW" "XXX" = 0.
Proof.
  split; [reflexivity |].
  split.
  - apply (calculate_distance_unknown collector "XXX" "BCN"). left. reflexivity.
  - apply (calculate_distance_unknown collector "LGW" "XXX"). right. reflexivity.
Defined.

(** C5. For two airports of the coordinate table the distance does not
    depend on the order of the arguments (over the reals the two values
    are equal, hence within any tolerance of each other). *)
Theorem calculate_distance_symmetric (self : EasyJetCollector.t) (a b : string) :
  known self a = true -> known self b = true ->
  calculate_distance self a b = calculate_distance self b a.
Proof.
  intros Ha Hb.
  destruct (known_lookup self a Ha) as (lat1 & lon1 & E1).
  destruct (known_lookup self b Hb) as (lat2 & lon2 & E2).
  unfold calculate_distance. rewrite E1, E2. cbv zeta.
  assert (Hsq : forall x y, sin ((x - y) / 2) ^ 2 = sin ((y - x) / 2) ^ 2).
  { intros x y. replace ((x - y) / 2) with (- ((y - x) / 2)) by lra.
    rewrite sin_neg. ring. }
  rewrite (Hsq (radians lat2) (radians lat1)), (Hsq (radians lon2) (radians lon1)).
  rewrite (Rmult_comm (cos (radians lat1)) (cos (radians lat2))).
  reflexivity.
Qed.

Lemma calculate_distance_symmetric_witness :
  calculate_distance collector "LGW" "BCN" = calculate_distance collector "BCN" "LGW".
Proof.
  apply (calculate_distance_symmetric collector "LGW" "BCN"); reflexivity.
Defined.

(** C6. The distance from an airport of the coordinate table to itself is
    exactly 0.0. *)
Theorem calculate_distance_self (self : EasyJetCollector.t) (a : string) :
  known self a = true -> calculate_distance self a a = 0.
Proof.
  intros Ha.
  destruct (known_lookup self a Ha) as (lat & lon & E).
  unfold calculate_distance. rewrite E. cbv zeta.
  replace ((radians lat - radians lat) / 2) with 0 by lra.
  replace ((radians lon - radians lon) / 2) with 0 by lra.
  rewrite sin_0.
  replace (0 ^ 2 + cos (radians lat) * cos (radians lat) * 0 ^ 2) with 0 by ring.
  rewrite Rminus_0_r, sqrt_0, sqrt_1, atan2_0_1.
  rewrite Rmult_0_r, Rmult_0_r. apply round_0.
Qed.

Lemma calculate_distance_self_witness : calculate_distance collector "CDG" "CDG" = 0.
Proof.
  apply (calculate_distance_self collector "CDG"). reflexivity.
Defined.

(** *** The distance from Gatwick to Barcelona

    The value is bracketed with the alternating series of the sine and the
    cosine and Machin's series for pi. *)

Lemma PI_enclosure : 3.1415926 < PI < 3.1415927.
Proof.
  pose proof (PI_2_3_7_ineq 3) as H.
  unfold PI_2_3_7_tg, tg_alt, Ratan_seq in H.
  cbn -[PI] in H.
  lra.
Qed.

Lemma INR_fact_value (n : nat) (z : Z) : Z.of_nat (fact n) = z -> INR (fact n) = IZR z.
Proof. intros <-. apply INR_IZR_INZ. Qed.

Lemma sin_lb_poly x : sin_lb x = x - x^3/6 + x^5/120 - x^7/5040.
Proof.
  unfold sin_lb, sin_approx, sin_term. cbn [sum_f_R0 Nat.mul Nat.add].
  rewrite (INR_fact_value 1 1), (INR_fact_value 3 6), (INR_fact_value 5 120),
    (INR_fact_value 7 5040) by reflexivity.
  field.
Qed.

Lemma sin_ub_poly x : sin_ub x = x - x^3/6 + x^5/120 - x^7/5040 + x^9/362880.
Proof.
  unfold sin_ub, sin_approx, sin_term. cbn [sum_f_R0 Nat.mul Nat.add].
  rewrite (INR_fact_value 1 1), (INR_fact_value 3 6), (INR_fact_value 5 120),
    (INR_fact_value 7 5040), (INR_fact_value 9 362880) by (vm_compute; reflexivity).
  field.
Qed.

Lemma cos_lb_poly x : cos_lb x = 1 - x^2/2 + x^4/24 - x^6/720.
Proof.
  unfold cos_lb, cos_approx, cos_term. cbn [sum_f_R0 Nat.mul Nat.add].
  rewrite (INR_fact_value 0 1), (INR_fact_value 2 2), (INR_fact_value 4 24),
    (INR_fact_value 6 720) by reflexivity.
  field.
Qed.

Lemma cos_ub_poly x : cos_ub x = 1 - x^2/2 + x^4/24 - x^6/720 + x^8/40320.
Proof.
  unfold cos_ub, cos_approx, cos_term. cbn [sum_f_R0 Nat.mul Nat.add].
  rewrite (INR_fact_value 0 1), (INR_fact_value 2 2), (INR_fact_value 4 24),
    (INR_fact_value 6 720), (INR_fact_value 8 40320) by (vm_compute; reflexivity).
  field.
Qed.

(** On [0, 3/2] the sine is increasing and lies between its two polynomials. *)
Lemma sin_between (x xl xh sl sh : R) :
  0 <= xl -> xl <= x -> x <= xh -> xh <= 3 / 2 ->
  sl <= sin_lb xl -> sin_ub xh <= sh ->
  sl <= sin x <= sh.
Proof.
  intros H0 Hl Hh H32 Hsl Hsh.
  pose proof PI2_3_2 as Hpi.
  assert (Hlo : sin xl <= sin x) by (apply sin_incr_1; lra).
  assert (Hhi : sin x <= sin xh) by (apply sin_incr_1; lra).
  destruct (SIN xl) as [A _]; [lra | lra |].
  destruct (SIN xh) as [_ B]; [lra | lra |].
  lra.
Qed.

Lemma cos_between (x xl xh cl ch : R) :
  0 <= xl -> xl <= x -> x <= xh -> xh <= 3 / 2 ->
  cl <= cos_lb xh -> cos_ub xl <= ch ->
  cl <= cos x <= ch.
Proof.
  intros H0 Hl Hh H32 Hcl Hch.
  pose proof PI2_3_2 as Hpi.
  assert (Hlo : cos xh <= cos x) by (apply cos_decr_1; lra).
  assert (Hhi : cos x <= cos xl) by (apply cos_decr_1; lra).
  destruct (COS xh) as [A _]; [lra | lra |].
  destruct (COS xl) as [_ B]; [lra | lra |].
  lra.
Qed.

(** The central angle: [atan2 (sqrt a) (sqrt (1 - a))] is the arc whose sine
    is [sqrt a]. *)
Lemma atan2_sqrt_between (a u v : R) :
  0 < a < 1 -> 0 < u <= 3 / 2 -> 0 < v <= 3 / 2 ->
  sin u ^ 2 < a -> a < sin v ^ 2 ->
  u < atan2 (sqrt a) (sqrt (1 - a)) < v.
Proof.
  intros Ha Hu Hv Hlo Hhi.
  pose proof PI2_3_2 as Hpi.
  assert (Hsv : 0 < sin v) by (apply sin_gt_0; lra).
  assert (Hs : 0 < sqrt a) by (apply sqrt_lt_R0; lra).
  assert (Hs2 : sqrt a ^ 2 = a) by (apply pow2_sqrt; lra).
  assert (Hs1 : sqrt a < 1).
  { rewrite <- sqrt_1. apply sqrt_lt_1; lra. }
  assert (Hc : 0 < sqrt (1 - a)) by (apply sqrt_lt_R0; lra).
  unfold atan2. destruct (Rlt_dec 0 (sqrt (1 - a))) as [_ | N]; [| contradiction].
  replace (sqrt (1 - a)) with (sqrt (1 - (sqrt a)²)) by (unfold Rsqr; f_equal; lra).
  rewrite <- asin_atan by lra.
  assert (Hb : - (PI / 2) < asin (sqrt a) < PI / 2) by (apply asin_bound_lt; lra).
  assert (Hsin : sin (asin (sqrt a)) = sqrt a) by (apply sin_asin; lra).
  split.
  - destruct (Rlt_dec u (asin (sqrt a))) as [L | L]; [exact L | exfalso].
    assert (Hle : sin (asin (sqrt a)) <= sin u).
    { apply sin_incr_1; lra. }
    rewrite Hsin in Hle.
    assert (0 < sin u) by (apply sin_gt_0; lra).
    assert (sqrt a * sqrt a <= sin u * sin u) by (apply Rmult_le_compat; lra).
    lra.
  - destruct (Rlt_dec (asin (sqrt a)) v) as [L | L]; [exact L | exfalso].
    assert (Hle : sin v <= sin (asin (sqrt a))).
    { apply sin_incr_1; lra. }
    rewrite Hsin in Hle.
    assert (sin v * sin v <= sqrt a * sqrt a) by (apply Rmult_le_compat; lra).
    lra.
Qed.

Lemma round_half_even_near (x : R) (n : Z) :
  Rabs (x - IZR n) < 1 / 2 -> round_half_even x = n.
Proof.
  intros H. apply Rabs_def2 in H. destruct H as [Hh Hl].
  unfold round_half_even.
  destruct (Rle_dec (IZR n) x) as [Hle | Hgt].
  - assert (Hn : Int_part x = n) by (symmetry; apply Int_part_spec; lra).
    unfold frac_part. rewrite Hn.
    destruct (Rlt_dec (x - IZR n) (1 / 2)); [reflexivity | lra].
  - assert (Hn : Int_part x = (n - 1)%Z).
    { symmetry. apply Int_part_spec. rewrite minus_IZR. lra. }
    unfold frac_part. rewrite Hn, minus_IZR.
    destruct (Rlt_dec (x - (IZR n - 1)) (1 / 2)); [lra |].
    destruct (Rlt_dec (1 / 2) (x - (IZR n - 1))); [lia | lra].
Qed.

Lemma mult_between (x xl xh y yl yh : R) :
  0 <= xl -> xl <= x <= xh -> 0 <= yl -> yl <= y <= yh ->
  xl * yl <= x * y <= xh * yh.
Proof.
  intros Hx0 [Hxl Hxh] Hy0 [Hyl Hyh]. split; apply Rmult_le_compat; lra.
Qed.

Lemma sqr_between (x xl xh : R) :
  0 <= xl -> xl <= x <= xh -> xl ^ 2 <= x ^ 2 <= xh ^ 2.
Proof.
  intros H0 H. simpl. rewrite !Rmult_1_r. apply mult_between; lra.
Qed.

Lemma LGW_coordinates : lookup "LGW" (airport_coords collector) = Some (51.1537, -0.1821).
Proof. reflexivity. Qed.

Lemma BCN_coordinates : lookup "BCN" (airport_coords collector) = Some (41.2974, 2.0833).
Proof. reflexivity. Qed.

(** The haversine term of the pair Gatwick, Barcelona. *)
Lemma LGW_BCN_haversine :
  let lat1 := radians 51.1537 in
  let lon1 := radians (-0.1821) in
  let lat2 := radians 41.2974 in
  let lon2 := radians 2.0833 in
  let a := sin ((lat2 - lat1) / 2) ^ 2 + cos lat1 * cos lat2 * sin ((lon2 - lon1) / 2) ^ 2 in
  0.007564058661 <= a <= 0.007564062585.
Proof.
  intros lat1 lon1 lat2 lon2 a.
  pose proof PI_enclosure as [Hpl Hph].
  assert (Hflip : sin ((lat2 - lat1) / 2) ^ 2 = sin ((lat1 - lat2) / 2) ^ 2).
  { replace ((lat2 - lat1) / 2) with (- ((lat1 - lat2) / 2)) by lra.
    rewrite sin_neg. ring. }
  assert (Hs1 : 0.0859064258 <= sin ((lat1 - lat2) / 2) <= 0.0859064288).
  { apply (sin_between _ 0.086012442 0.0860124449);
      try (unfold lat1, lat2, radians; lra).
    - rewrite sin_lb_poly. lra.
    - rewrite sin_ub_poly. lra. }
  assert (Hs2 : 0.0197680563 <= sin ((lon2 - lon1) / 2) <= 0.0197680571).
  { apply (sin_between _ 0.0197693441 0.0197693448);
      try (unfold lon1, lon2, radians; lra).
    - rewrite sin_lb_poly. lra.
    - rewrite sin_ub_poly. lra. }
  assert (Hc1 : 0.6272234459 <= cos lat1 <= 0.62723348).
  { apply (cos_between _ 0.8928004743 0.8928005028);
      try (unfold lat1, radians; lra).
    - rewrite cos_lb_poly. lra.
    - rewrite cos_ub_poly. lra. }
  assert (Hc2 : 0.7512922793 <= cos lat2 <= 0.7512941012).
  { apply (cos_between _ 0.7207755902 0.7207756132);
      try (unfold lat2, radians; lra).
    - rewrite cos_lb_poly. lra.
    - rewrite cos_ub_poly. lra. }
  assert (Q1 := fun H => sqr_between _ _ _ H Hs1).
  assert (Q2 := fun H => sqr_between _ _ _ H Hs2).
  assert (P1 := fun H H' => mult_between _ _ _ _ _ _ H Hc1 H' Hc2).
  specialize (Q1 ltac:(lra)). specialize (Q2 ltac:(lra)).
  specialize (P1 ltac:(lra) ltac:(lra)).
  assert (P2 := fun H H' => mult_between _ _ _ _ _ _ H P1 H' Q2).
  specialize (P2 ltac:(lra) ltac:(lra)).
  unfold a. rewrite Hflip. lra.
Qed.

(** The distance Gatwick, Barcelona, as the collector computes it. *)
Lemma LGW_BCN_distance : calculate_distance collector "LGW" "BCN" = 1109.59.
Proof.
  unfold calculate_distance. rewrite LGW_coordinates, BCN_coordinates. cbv zeta.
  pose proof LGW_BCN_haversine as Ha. cbv zeta in Ha.
  set (a := sin ((radians 41.2974 - radians 51.1537) / 2) ^ 2 +
            cos (radians 51.1537) * cos (radians 41.2974) *
            sin ((radians 2.0833 - radians (-0.1821)) / 2) ^ 2) in *.
  assert (Hc : 0.08708092 < atan2 (sqrt a) (sqrt (1 - a)) < 0.08708169).
  { apply atan2_sqrt_between; try lra.
    - destruct (SIN 0.08708092) as [_ Hub]; [lra | pose proof PI_enclosure; lra |].
      assert (H0 : 0 < sin 0.08708092) by (apply sin_gt_0; pose proof PI_enclosure; lra).
      rewrite sin_ub_poly in Hub.
      assert (Hub' : sin 0.08708092 <= 0.0869709047) by lra.
      pose proof (sqr_between (sin 0.08708092) 0 0.0869709047 ltac:(lra) ltac:(lra)) as Q.
      lra.
    - destruct (SIN 0.08708169) as [Hlb _]; [lra | pose proof PI_enclosure; lra |].
      rewrite sin_lb_poly in Hlb.
      assert (Hlb' : 0.08697167177 <= sin 0.08708169) by lra.
      pose proof (sqr_between (sin 0.08708169) 0.08697167177 1 ltac:(lra)
                    ltac:(pose proof (SIN_bound 0.08708169); lra)) as Q.
      lra. }
  unfold round.
  rewrite (round_half_even_near _ 110959).
  - lra.
  - apply Rabs_def1; lra.
Qed.

(** C7, as amended. [calculate_distance('LGW', 'BCN')] returns 1109.59: it
    is within 2 km of the haversine value of these coordinates, which is
    about 1109.6 km with the radius 6371 km. *)
Theorem LGW_BCN_within_tolerance :
  calculate_distance collector "LGW" "BCN" = 1109.59 /\
  Rabs (calculate_distance collector "LGW" "BCN" - 1109.6) <= 2.
Proof.
  rewrite LGW_BCN_distance. split; [reflexivity |].
  apply Rabs_le. lra.
Qed.

(** C7, as stated, fails: the computed distance is not within 2 km of any
    reference value between 1137 and 1140 km. *)
Lemma LGW_BCN_outside_stated_band :
  ~ exists reference : R,
      1137 <= reference <= 1140 /\
      Rabs (calculate_distance collector "LGW" "BCN" - reference) <= 2.
Proof.
  intros (reference & Href & Habs).
  rewrite LGW_BCN_distance in Habs.
  unfold Rabs in Habs. destruct (Rcase_abs (1109.59 - reference)); lra.
Qed.

End Distance.

(** ** The lowest fare *)

Section LowestFare.

Lemma Qlt_bool_iff (a b : Q) : Qlt_bool a b = true <-> (a < b)%Q.
Proof. unfold Qlt_bool, Qlt. apply Z.ltb_lt. Qed.

Lemma number_le_refl (x : number) : number_le x x = true.
Proof.
  unfold number_le. destruct x as [a |]; cbn; [| reflexivity].
  apply negb_true_iff, not_true_iff_false. rewrite Qlt_bool_iff. apply Qlt_irrefl.
Qed.

Lemma number_le_trans (x y z : number) :
  number_le x y = true -> number_le y z = true -> number_le x z = true.
Proof.
  unfold number_le. rewrite !negb_true_iff.
  destruct x as [a |], y as [b |], z as [c |]; cbn; try congruence.
  rewrite <- !not_true_iff_false, !Qlt_bool_iff.
  intros Hab Hbc Hca. apply Qnot_lt_le in Hab, Hbc.
  apply (Qle_not_lt _ _ (Qle_trans _ _ _ Hab Hbc)). exact Hca.
Qed.

Lemma number_lt_le (x y : number) : number_lt x y = true -> number_le x y = true.
Proof.
  unfold number_le. rewrite negb_true_iff.
  destruct x as [a |], y as [b |]; cbn; try congruence.
  rewrite <- not_true_iff_false, !Qlt_bool_iff.
  intros Hab Hba. exact (Qlt_irrefl _ (Qlt_trans _ _ _ Hab Hba)).
Qed.

Lemma py_lt_numbers (x y : number) : py_lt (VNum x) (VNum y) = Ok (number_lt x y).
Proof. reflexivity. Qed.

(** On a record of the shape the API documents, the expression of the
    collector reads the fare the specification describes. *)
Lemma fare_quoted (flight : value) (x : number) :
  quoted_fare flight = Some x -> fare flight = Ok (VNum x).
Proof.
  unfold quoted_fare, fare, dict_get.
  destruct flight as [| | | | | entries]; try discriminate.
  destruct (lookup "pricing" entries) as [pricing |].
  - destruct pricing as [| | | | | inner]; try discriminate.
    destruct (lookup "lowestFare" inner) as [v |].
    + destruct v; try discriminate. intros H. injection H as <-. reflexivity.
    + intros H. injection H as <-. reflexivity.
  - cbn. intros H. injection H as <-. reflexivity.
Qed.

Lemma min_from_numbers (flights : list value) :
  forall (xs : list number) (current : number),
    map quoted_fare flights = map Some xs ->
    exists m, min_from (VNum current) flights = Ok (VNum m) /\
              is_minimum m (current :: xs).
Proof.
  induction flights as [| flight rest IH]; intros xs current Hxs.
  - destruct xs; [| discriminate]. exists current. split; [reflexivity |].
    split; [left; reflexivity |].
    intros x [<- | []]. apply number_le_refl.
  - destruct xs as [| x xs]; [discriminate |].
    cbn [map] in Hxs. injection Hxs as Hx Hrest.
    cbn [min_from]. rewrite (fare_quoted _ _ Hx), py_lt_numbers.
    destruct (number_lt x current) eqn:Hlt.
    + destruct (IH xs x Hrest) as (m & Hm & Hin & Hle).
      exists m. split; [exact Hm |]. split.
      * destruct Hin as [<- | Hin]; [right; left; reflexivity | right; right; exact Hin].
      * intros y [<- | Hy].
        -- apply (number_le_trans m x); [apply Hle; left; reflexivity |].
           apply number_lt_le, Hlt.
        -- apply Hle. exact Hy.
    + destruct (IH xs current Hrest) as (m & Hm & Hin & Hle).
      exists m. split; [exact Hm |]. split.
      * destruct Hin as [<- | Hin]; [left; reflexivity | right; right; exact Hin].
      * intros y [<- | [<- | Hy]].
        -- apply Hle. left. reflexivity.
        -- apply (number_le_trans m current); [apply Hle; left; reflexivity |].
           unfold number_le. rewrite Hlt. reflexivity.
        -- apply Hle. right. exact Hy.
Qed.

Lemma lowest_fare_minimum (flights : list value) (xs : list number) :
  flights <> [] ->
  map quoted_fare flights = map Some xs ->
  exists m, lowest_fare (VList flights) = Ok (VNum m) /\ is_minimum m xs.
Proof.
  intros Hne Hxs. destruct flights as [| flight rest]; [contradiction |].
  destruct xs as [| x xs]; [discriminate |].
  cbn [map] in Hxs. injection Hxs as Hx Hrest.
  unfold lowest_fare. cbn [iterate]. rewrite (fare_quoted _ _ Hx).
  apply min_from_numbers. exact Hrest.
Qed.

Lemma minimum_of_finite (m : number) (xs : list number) :
  is_minimum m xs -> finite_fares xs <> [] -> is_minimum m (finite_fares xs).
Proof.
  intros [Hin Hle] Hfin. unfold finite_fares in *.
  destruct (filter _ xs) as [| y ys] eqn:Hf; [contradiction |].
  assert (Hy : In y (filter (fun x => match x with Fin _ => true | Inf => false end) xs))
    by (rewrite Hf; left; reflexivity).
  apply filter_In in Hy. destruct Hy as [Hyin Hyfin].
  rewrite <- Hf. split.
  - apply filter_In. split; [exact Hin |].
    destruct m as [q |]; [reflexivity |].
    specialize (Hle y Hyin). destruct y; [discriminate Hle | discriminate Hyfin].
  - intros x Hx. apply filter_In in Hx. apply Hle. apply Hx.
Qed.

End LowestFare.

(** ** The flight collector *)

Section Collector.

Variable self : EasyJetCollector.t.
Variables origin_airport date : string.

Lemma for_route_nil flight_data net w :
  for_route self origin_airport date [] flight_data net w = (Ret flight_data, w).
Proof. reflexivity. Qed.

(** One turn of the loop, by cases on the route record and on the answer
    to its flights request. *)
Lemma for_route_cons route rest flight_data net w :
  for_route self origin_airport date (route :: rest) flight_data net w =
  match subscript route "destination" with
  | Err e => (Raise (BuiltinError e), w)
  | Ok destination =>
      let rq := flights_request self origin_airport destination date in
      let rp := net (length (exchanges w)) rq in
      let w1 := logged w rq rp in
      match rp with
      | ConnectionFailed msg => (Raise (RequestException msg), w1)
      | Answered r =>
          match status_error r with
          | Some msg => (Raise (RequestException msg), w1)
          | None =>
              match body r with
              | NotJson msg => (Raise (RequestException msg), w1)
              | Json flight_json =>
                  match dict_get flight_json "flights" (VList []) with
                  | Err e => (Raise (BuiltinError e), w1)
                  | Ok flights =>
                      if truthy flights then
                        match lowest_fare flights with
                        | Err e => (Raise (BuiltinError e), w1)
                        | Ok lowest_price =>
                            match distance_to self origin_airport destination with
                            | Err e => (Raise (BuiltinError e), w1)
                            | Ok distance =>
                                for_route self origin_airport date rest
                                  (flight_data ++ [(distance, destination, lowest_price)])
                                  net w1
                            end
                        end
                      else for_route self origin_airport date rest flight_data net w1
                  end
              end
          end
      end
  end.
Proof.
  cbn [for_route]. unfold bind at 1, lift at 1.
  destruct (subscript route "destination") as [destination | e]; [| reflexivity].
  unfold ret at 1. unfold bind at 1, requests_get at 1. fold (logged w).
  cbv zeta.
  destruct (net (length (exchanges w)) _) as [msg | r]; [reflexivity |].
  unfold bind at 1, raise_for_status at 1.
  destruct (status_error r) as [msg |]; [reflexivity |].
  unfold ret at 1. unfold bind at 1, json at 1.
  destruct (body r) as [flight_json | msg]; [| reflexivity].
  unfold ret at 1. unfold bind at 1, lift at 1.
  destruct (dict_get flight_json "flights" (VList [])) as [flights | e]; [| reflexivity].
  unfold ret at 1.
  destruct (truthy flights); [| reflexivity].
  unfold bind at 1, lift at 1.
  destruct (lowest_fare flights) as [lowest_price | e]; [| reflexivity].
  unfold ret at 1. unfold bind at 1, lift at 1.
  destruct (distance_to self origin_airport destination) as [distance | e]; reflexivity.
Qed.


Lemma numbered_cons k route rest :
  numbered k (route :: rest) = (k, route) :: numbered (S k) rest.
Proof. reflexivity. Qed.

Lemma all_answered_cons rq rp l :
  failed rp = false -> all_answered l -> all_answered ((rq, rp) :: l).
Proof. intros H Hl. constructor; [exact H | exact Hl]. Qed.

Lemma for_route_run routes :
  forall flight_data net w res w',
    for_route self origin_airport date routes flight_data net w = (res, w') ->
    exists new,
      exchanges w' = exchanges w ++ new /\ stdout w' = stdout w /\ files w' = files w /\
      loop_result self origin_airport date net routes flight_data w res new.
Proof.
  induction routes as [| route rest IH]; intros flight_data net w res w' Hrun.
  - rewrite for_route_nil in Hrun. injection Hrun as <- <-.
    exists []. rewrite app_nil_r. repeat split; try constructor.
    cbn. rewrite app_nil_r. reflexivity.
  - rewrite for_route_cons in Hrun.
    unfold loop_result. rewrite numbered_cons. cbn [filter].
    unfold has_flights at 1. cbn [fst snd].
    destruct (subscript route "destination") as [destination | e] eqn:Hsub.
    2:{ injection Hrun as <- <-. exists []. rewrite app_nil_r.
        repeat split; constructor. }
    cbv zeta in Hrun.
    set (rq := flights_request self origin_airport destination date) in *.
    destruct (net (length (exchanges w)) rq) as [msg | r] eqn:Hnet.
    { injection Hrun as <- <-. exists [(rq, ConnectionFailed msg)].
      repeat split. exists [], rq, (ConnectionFailed msg).
      repeat split; constructor. }
    destruct (status_error r) as [msg |] eqn:Hstatus.
    { injection Hrun as <- <-. exists [(rq, Answered r)].
      repeat split. exists [], rq, (Answered r).
      repeat split; try constructor.
      unfold failed, failure_message. rewrite Hstatus. reflexivity. }
    destruct (body r) as [flight_json | msg] eqn:Hbody.
    2:{ injection Hrun as <- <-. exists [(rq, Answered r)].
        repeat split. exists [], rq, (Answered r).
        repeat split; try constructor.
        unfold failed, failure_message. rewrite Hstatus, Hbody. reflexivity. }
    assert (Hok : failed (Answered r) = false)
      by (unfold failed, failure_message; rewrite Hstatus, Hbody; reflexivity).
    destruct (dict_get flight_json "flights" (VList [])) as [flights | e] eqn:Hflights.
    2:{ injection Hrun as <- <-. exists [(rq, Answered r)].
        repeat split. apply all_answered_cons; [exact Hok | constructor]. }
    assert (Hstep : forall acc,
      for_route self origin_airport date rest acc net (logged w rq (Answered r)) = (res, w') ->
      exists new, exchanges w' = exchanges w ++ new /\ stdout w' = stdout w /\
        files w' = files w /\
        match res with
        | Ret rows =>
            all_answered new /\ length new = S (length rest) /\
            Forall (fun route => exists d, subscript route "destination" = Ok d) rest /\
            rows = acc ++ map (row_for self origin_airport date net)
                     (filter (has_flights self origin_airport date net) (numbered (S (length (exchanges w))) rest))
        | Raise (RequestException _) =>
            exists front rq rp, new = front ++ [(rq, rp)] /\ failed rp = true /\
                                all_answered front
        | Raise (BuiltinError _) => all_answered new
        end).
    { intros acc Hrest. apply IH in Hrest.
      destruct Hrest as (new & Hex & Hout & Hfiles & Hres).
      cbn [logged exchanges stdout files] in Hex, Hout, Hfiles, Hres.
      exists ((rq, Answered r) :: new).
      rewrite Hex, <- app_assoc. repeat split; try assumption.
      unfold loop_result in Hres. cbn [logged exchanges] in Hres.
      destruct res as [rows | [msg | e]].
      - destruct Hres as (Hall & Hlen & Hdest & Hrows).
        rewrite length_app, Nat.add_comm in Hrows. cbn [length Nat.add] in Hrows.
        repeat split.
        + apply all_answered_cons; assumption.
        + cbn [length]. rewrite Hlen. reflexivity.
        + exact Hdest.
        + exact Hrows.
      - destruct Hres as (front & rq' & rp' & Hnew & Hfail & Hfront).
        exists ((rq, Answered r) :: front), rq', rp'. rewrite Hnew.
        repeat split; try assumption. apply all_answered_cons; assumption.
      - apply all_answered_cons; assumption. }
    assert (Hof : flights_of self origin_airport date net (length (exchanges w)) route
                  = flights).
    { unfold flights_of, destination_of. rewrite Hsub. fold rq.
      rewrite Hnet, Hbody, Hflights. reflexivity. }
    rewrite Hof.
    destruct (truthy flights) eqn:Htruthy.
    + destruct (lowest_fare flights) as [lowest_price | e] eqn:Hlow.
      2:{ injection Hrun as <- <-. exists [(rq, Answered r)].
          repeat split. apply all_answered_cons; [exact Hok | constructor]. }
      destruct (distance_to self origin_airport destination) as [distance | e] eqn:Hdist.
      2:{ injection Hrun as <- <-. exists [(rq, Answered r)].
          repeat split. apply all_answered_cons; [exact Hok | constructor]. }
      apply Hstep in Hrun. destruct Hrun as (new & Hex & Hout & Hfiles & Hres).
      exists new. repeat split; try assumption.
      destruct res as [rows | [msg | e]]; try exact Hres.
      destruct Hres as (Hall & Hlen & Hdest & Hrows).
      split; [exact Hall |]. split; [exact Hlen |].
      split; [constructor; [exists destination; exact Hsub | exact Hdest] |].
      assert (Hrow : row_for self origin_airport date net (length (exchanges w), route)
                     = (distance, destination, lowest_price)).
      { unfold row_for, expected_row. cbn [fst snd].
        rewrite Hof, Hlow. unfold destination_of. rewrite Hsub, Hdist. reflexivity. }
      cbn [map]. rewrite Hrow, Hrows, <- app_assoc. reflexivity.
    + apply Hstep in Hrun. destruct Hrun as (new & Hex & Hout & Hfiles & Hres).
      exists new. repeat split; try assumption.
      destruct res as [rows | [msg | e]]; try exact Hres.
      destruct Hres as (Hall & Hlen & Hdest & Hrows).
      split; [exact Hall |]. split; [exact Hlen |].
      split; [constructor; [exists destination; exact Hsub | exact Hdest] | exact Hrows].
Qed.


(** The body of the [try] block, by cases on the answer to the routes
    request. *)
Lemma get_all_flights_try_unfold net w :
  get_all_flights_try self origin_airport date net w =
  let rq := routes_request self origin_airport in
  let rp := net (length (exchanges w)) rq in
  let w1 := logged w rq rp in
  match rp with
  | ConnectionFailed msg => (Raise (RequestException msg), w1)
  | Answered r =>
      match status_error r with
      | Some msg => (Raise (RequestException msg), w1)
      | None =>
          match body r with
          | NotJson msg => (Raise (RequestException msg), w1)
          | Json routes_json =>
              match dict_get routes_json "routes" (VList []) with
              | Err e => (Raise (BuiltinError e), w1)
              | Ok all_destinations =>
                  match iterate all_destinations with
                  | Err e => (Raise (BuiltinError e), w1)
                  | Ok routes => for_route self origin_airport date routes [] net w1
                  end
              end
          end
      end
  end.
Proof.
  unfold get_all_flights_try. unfold bind at 1, requests_get at 1. fold (logged w).
  cbv zeta.
  destruct (net (length (exchanges w)) _) as [msg | r]; [reflexivity |].
  unfold bind at 1, raise_for_status at 1.
  destruct (status_error r) as [msg |]; [reflexivity |].
  unfold ret at 1. unfold bind at 1, json at 1.
  destruct (body r) as [routes_json | msg]; [| reflexivity].
  unfold ret at 1. unfold bind at 1, lift at 1.
  destruct (dict_get routes_json "routes" (VList [])) as [all_destinations | e]; [| reflexivity].
  unfold ret at 1. unfold bind at 1, lift at 1.
  destruct (iterate all_destinations) as [routes | e]; reflexivity.
Qed.

Lemma get_all_flights_try_run net w res w' :
  get_all_flights_try self origin_airport date net w = (res, w') ->
  exists new,
    exchanges w' = exchanges w ++ new /\ stdout w' = stdout w /\ files w' = files w /\
    match res with
    | Ret rows =>
        let k := length (exchanges w) in
        let routes := routes_of self origin_airport net k in
        all_answered new /\ length new = S (length routes) /\
        failed (net k (routes_request self origin_airport)) = false /\
        Forall (fun route => exists d, subscript route "destination" = Ok d) routes /\
        rows = map (row_for self origin_airport date net) (filter (has_flights self origin_airport date net) (numbered (S k) routes))
    | Raise (RequestException _) =>
        exists front rq rp, new = front ++ [(rq, rp)] /\ failed rp = true /\ all_answered front
    | Raise (BuiltinError _) => all_answered new
    end.
Proof.
  rewrite get_all_flights_try_unfold. cbv zeta. unfold routes_of.
  set (rq := routes_request self origin_airport).
  destruct (net (length (exchanges w)) rq) as [msg | r] eqn:Hnet.
  { intros H. injection H as <- <-. exists [(rq, ConnectionFailed msg)].
    repeat split. exists [], rq, (ConnectionFailed msg). repeat split; constructor. }
  destruct (status_error r) as [msg |] eqn:Hstatus.
  { intros H. injection H as <- <-. exists [(rq, Answered r)].
    repeat split. exists [], rq, (Answered r).
    repeat split; try constructor.
    unfold failed, failure_message. rewrite Hstatus. reflexivity. }
  destruct (body r) as [routes_json | msg] eqn:Hbody.
  2:{ intros H. injection H as <- <-. exists [(rq, Answered r)].
      repeat split. exists [], rq, (Answered r).
      repeat split; try constructor.
      unfold failed, failure_message. rewrite Hstatus, Hbody. reflexivity. }
  assert (Hok : failed (Answered r) = false)
    by (unfold failed, failure_message; rewrite Hstatus, Hbody; reflexivity).
  destruct (dict_get routes_json "routes" (VList [])) as [all_destinations | e].
  2:{ intros H. injection H as <- <-. exists [(rq, Answered r)].
      repeat split. apply all_answered_cons; [exact Hok | constructor]. }
  destruct (iterate all_destinations) as [routes | e].
  2:{ intros H. injection H as <- <-. exists [(rq, Answered r)].
      repeat split. apply all_answered_cons; [exact Hok | constructor]. }
  intros Hrun. apply for_route_run in Hrun.
  destruct Hrun as (new & Hex & Hout & Hfiles & Hres).
  cbn [logged exchanges stdout files] in Hex, Hout, Hfiles.
  exists ((rq, Answered r) :: new). rewrite Hex, <- app_assoc.
  repeat split; try assumption.
  unfold loop_result in Hres. cbn [logged exchanges] in Hres.
  destruct res as [rows | [msg | e]].
  - destruct Hres as (Hall & Hlen & Hdest & Hrows).
    rewrite length_app, Nat.add_comm in Hrows. cbn [length Nat.add app] in Hrows.
    repeat split; try assumption.
    + apply all_answered_cons; assumption.
    + cbn [length]. rewrite Hlen. reflexivity.
  - destruct Hres as (front & rq' & rp' & Hnew & Hfail & Hfront).
    exists ((rq, Answered r) :: front), rq', rp'. rewrite Hnew.
    repeat split; try assumption. apply all_answered_cons; assumption.
  - apply all_answered_cons; assumption.
Qed.

Lemma made_app w w' new : exchanges w' = exchanges w ++ new -> made w w' = new.
Proof.
  intros H. unfold made. rewrite H.
  rewrite skipn_app, skipn_all, Nat.sub_diag. reflexivity.
Qed.

Lemma answered_not_failed l :
  all_answered l -> ~ Exists (fun x => failed (snd x) = true) l.
Proof.
  intros Hall Hex. apply Exists_exists in Hex. destruct Hex as (x & Hin & Hx).
  unfold all_answered in Hall. rewrite Forall_forall in Hall.
  specialize (Hall x Hin). congruence.
Qed.

(** The replies on which the code raises a [RequestException]. *)
Lemma failed_cases (rp : reply) :
  failed rp = true <->
  match rp with
  | ConnectionFailed _ => True
  | Answered r => (400 <= status_code r < 600)%Z \/ exists msg, body r = NotJson msg
  end.
Proof.
  unfold failed, failure_message, status_error.
  destruct rp as [msg | r]; [split; [intros _; exact I | reflexivity] |].
  destruct (400 <=? status_code r)%Z eqn:Hlo; destruct (status_code r <? 600)%Z eqn:Hhi;
    cbn [andb];
    try apply Z.leb_le in Hlo; try apply Z.ltb_lt in Hhi;
    try apply Z.leb_gt in Hlo; try apply Z.ltb_ge in Hhi.
  1: split; [intros _; left; lia | reflexivity].
  all: destruct (body r) as [v | msg];
    (split; [intros H; try discriminate H; right; exists msg; reflexivity
            | intros [H | [m H]]; [exfalso; lia | first [discriminate H | reflexivity]]]).
Qed.

(** The whole method, from the way the [try] block ends. *)
Lemma get_all_flights_unfold net w :
  get_all_flights self origin_airport date net w =
  match get_all_flights_try self origin_airport date net w with
  | (Raise (RequestException msg), w1) =>
      (Ret [], mkWorld (exchanges w1)
                       (stdout w1 ++ [("Error fetching flight data: " ++ msg)%string])
                       (files w1))
  | r => r
  end.
Proof.
  unfold get_all_flights, try_except_RequestException.
  destruct (get_all_flights_try self origin_airport date net w) as [[rows | [msg | e]] w1];
    reflexivity.
Qed.

(** What a call of the method leaves: the requests it made are added to
    the log, the files are untouched, and it returns the empty list when
    one of the requests failed. *)
Lemma get_all_flights_run net w :
  let run := get_all_flights self origin_airport date net w in
  exists new,
    exchanges (snd run) = exchanges w ++ new /\
    files (snd run) = files w /\
    (Exists (fun x => failed (snd x) = true) new -> fst run = Ret []).
Proof.
  cbv zeta. rewrite get_all_flights_unfold.
  destruct (get_all_flights_try self origin_airport date net w) as [res w1] eqn:Hrun.
  apply get_all_flights_try_run in Hrun.
  destruct Hrun as (new & Hex & _ & Hfiles & Hres).
  exists new.
  destruct res as [rows | [msg | e]]; cbn [fst snd exchanges files];
    (split; [exact Hex |]); (split; [exact Hfiles |]).
  - intros Hfail. destruct Hres as (Hall & _).
    exfalso. exact (answered_not_failed _ Hall Hfail).
  - reflexivity.
  - intros Hfail. exfalso. exact (answered_not_failed _ Hres Hfail).
Qed.


Lemma filter_complement_length {A : Type} (f : A -> bool) (l : list A) :
  length (filter (fun x => negb (f x)) l) = length l - length (filter f l).
Proof.
  induction l as [| x l IH]; [reflexivity |].
  cbn [filter]. destruct (f x); cbn [negb length].
  - exact IH.
  - rewrite IH.
    assert (length (filter f l) <= length l) by apply filter_length_le. lia.
Qed.

Lemma numbered_length k routes : length (numbered k routes) = length routes.
Proof.
  unfold numbered. rewrite length_combine, length_seq. apply Nat.min_id.
Qed.

Lemma numbered_app k l1 l2 :
  numbered k (l1 ++ l2) = numbered k l1 ++ numbered (k + length l1) l2.
Proof.
  revert k. induction l1 as [| x l1 IH]; intros k.
  - cbn. rewrite Nat.add_0_r. reflexivity.
  - rewrite <- app_comm_cons, !numbered_cons, IH. cbn [length app].
    rewrite Nat.add_succ_r. reflexivity.
Qed.

(** A run in which no request failed and that returned rows is a run whose
    [try] block returned them. *)
Lemma successful_run net w rows :
  all_answered (made w (snd (get_all_flights self origin_airport date net w))) ->
  fst (get_all_flights self origin_airport date net w) = Ret rows ->
  let k := length (exchanges w) in
  let routes := routes_of self origin_airport net k in
  Forall (fun route => exists d, subscript route "destination" = Ok d) routes /\
  rows = map (row_for self origin_airport date net)
             (filter (has_flights self origin_airport date net) (numbered (S k) routes)).
Proof.
  rewrite get_all_flights_unfold.
  destruct (get_all_flights_try self origin_airport date net w) as [res w1] eqn:Hrun.
  apply get_all_flights_try_run in Hrun.
  destruct Hrun as (new & Hex & _ & _ & Hres).
  destruct res as [rows' | [msg | e]]; cbn [fst snd]; intros Hall Hret.
  - injection Hret as <-. cbv zeta in Hres.
    destruct Hres as (_ & _ & _ & Hdest & Hrows). split; assumption.
  - exfalso. destruct Hres as (front & rq & rp & Hnew & Hfail & _).
    assert (Hmade : made w (mkWorld (exchanges w1)
              (stdout w1 ++ [("Error fetching flight data: " ++ msg)%string]) (files w1))
            = new) by (apply made_app; exact Hex).
    rewrite Hmade, Hnew in Hall.
    apply (answered_not_failed _ Hall).
    apply Exists_app. right. constructor. exact Hfail.
  - discriminate.
Qed.

(** C4, as amended. In a successful run a destination whose flights value
    fails the test [if flights:] gives no row, an empty list among them;
    the rows are those of the other destinations in the order of the
    routes, and there are as many rows as routes less the destinations
    whose flights value fails the test. *)
Theorem rows_follow_routes net w rows :
  let run := get_all_flights self origin_airport date net w in
  let k := length (exchanges w) in
  let routes := numbered (S k) (routes_of self origin_airport net k) in
  let flights := fun kr : nat * value =>
    flights_of self origin_airport date net (fst kr) (snd kr) in
  all_answered (made w (snd run)) ->
  fst run = Ret rows ->
  rows = map (row_for self origin_airport date net)
             (filter (fun kr => truthy (flights kr)) routes) /\
  map row_destination rows =
    map (fun kr => destination_of (snd kr))
        (filter (fun kr => truthy (flights kr)) routes) /\
  length rows =
    length (routes_of self origin_airport net k)
    - length (filter (fun kr => negb (truthy (flights kr))) routes) /\
  (forall kr, is_empty_list (flights kr) = true -> truthy (flights kr) = false) /\
  (forall kr l, flights kr = VList l -> l <> [] -> truthy (flights kr) = true).
Proof.
  intros run k routes flights Hall Hret.
  destruct (successful_run net w rows Hall Hret) as [_ Hrows].
  fold k in Hrows. fold routes in Hrows.
  change (filter (has_flights self origin_airport date net) routes)
    with (filter (fun kr => truthy (flights kr)) routes) in Hrows.
  split; [exact Hrows |]. split; [| split; [| split]].
  - rewrite Hrows, map_map. apply map_ext. intros kr. reflexivity.
  - rewrite Hrows, length_map.
    pose proof (filter_complement_length (fun kr => negb (truthy (flights kr))) routes) as Hc.
    unfold routes at 2 in Hc. rewrite numbered_length in Hc. rewrite <- Hc.
    f_equal. apply filter_ext. intros kr. rewrite negb_involutive. reflexivity.
  - intros kr Hempty. destruct (flights kr) as [| | | | [| x l] |]; try discriminate Hempty.
    reflexivity.
  - intros kr l -> Hne. destruct l; [contradiction | reflexivity].
Qed.


(** C3. In a successful run, the row of a destination whose flights list is
    not empty carries the minimum of the fares its flights quote, a flight
    without [pricing] or without [lowestFare] counting as the infinite
    sentinel: the minimum is taken over the quoted fares alone as soon as
    one flight quotes a fare. *)
Theorem row_price_is_lowest_fare net w rows before route after flights xs :
  let run := get_all_flights self origin_airport date net w in
  let k := length (exchanges w) in
  all_answered (made w (snd run)) ->
  fst run = Ret rows ->
  routes_of self origin_airport net k = before ++ route :: after ->
  flights_of self origin_airport date net (S k + length before) route = VList flights ->
  flights <> [] ->
  map quoted_fare flights = map Some xs ->
  exists r m,
    nth_error rows
      (length (filter (has_flights self origin_airport date net) (numbered (S k) before)))
    = Some r /\
    row_destination r = destination_of route /\
    row_price r = VNum m /\
    is_minimum m xs /\
    (finite_fares xs <> [] -> is_minimum m (finite_fares xs)).
Proof.
  intros run k Hall Hret Hroutes Hflights Hne Hxs.
  destruct (successful_run net w rows Hall Hret) as [_ Hrows].
  fold k in Hrows. rewrite Hroutes, numbered_app, filter_app, map_app in Hrows.
  rewrite numbered_cons in Hrows. cbn [filter] in Hrows.
  unfold has_flights at 2 in Hrows. cbn [fst snd] in Hrows.
  rewrite Hflights in Hrows.
  assert (Htruthy : truthy (VList flights) = true) by (destruct flights; [contradiction | reflexivity]).
  rewrite Htruthy in Hrows. cbn [map] in Hrows.
  destruct (lowest_fare_minimum flights xs Hne Hxs) as (m & Hlow & Hmin).
  exists (row_for self origin_airport date net (S k + length before, route)), m.
  split; [| split; [| split; [| split]]].
  - rewrite Hrows, nth_error_app2 by (rewrite length_map; apply Nat.le_refl).
    rewrite length_map, Nat.sub_diag. reflexivity.
  - reflexivity.
  - unfold row_price, row_for, expected_row. cbn [fst snd].
    rewrite Hflights, Hlow. reflexivity.
  - exact Hmin.
  - apply minimum_of_finite. exact Hmin.
Qed.

Lemma for_route_app l1 :
  forall l2 flight_data net w,
    for_route self origin_airport date (l1 ++ l2) flight_data net w =
    match for_route self origin_airport date l1 flight_data net w with
    | (Ret rows, w1) => for_route self origin_airport date l2 rows net w1
    | (Raise e, w1) => (Raise e, w1)
    end.
Proof.
  induction l1 as [| route rest IH]; intros l2 flight_data net w.
  - reflexivity.
  - rewrite <- app_comm_cons, !for_route_cons.
    destruct (subscript route "destination") as [destination | e]; [| reflexivity].
    cbv zeta.
    destruct (net (length (exchanges w)) _) as [msg | r]; [reflexivity |].
    destruct (status_error r); [reflexivity |].
    destruct (body r) as [flight_json | msg]; [| reflexivity].
    destruct (dict_get flight_json "flights" (VList [])) as [fl | e]; [| reflexivity].
    destruct (truthy fl); [| apply IH].
    destruct (lowest_fare fl); [| reflexivity].
    destruct (distance_to self origin_airport destination); [| reflexivity].
    apply IH.
Qed.

Lemma lacks_destination_subscript route :
  lacks_destination route ->
  subscript route "destination" = Err (KeyError "destination").
Proof.
  intros (entries & -> & Hnone). unfold subscript. rewrite Hnone. reflexivity.
Qed.

Lemma routes_of_answered net k before route after :
  failed (net k (routes_request self origin_airport)) = false ->
  routes_of self origin_airport net k = before ++ route :: after ->
  exists r routes_json v,
    net k (routes_request self origin_airport) = Answered r /\
    status_error r = None /\
    body r = Json routes_json /\
    dict_get routes_json "routes" (VList []) = Ok v /\
    iterate v = Ok (before ++ route :: after).
Proof.
  unfold routes_of, failed, failure_message.
  destruct (net k (routes_request self origin_airport)) as [msg | r]; [discriminate |].
  destruct (status_error r) eqn:Hstatus; [discriminate |].
  destruct (body r) as [routes_json | msg] eqn:Hbody; [| discriminate]. intros _.
  destruct (dict_get routes_json "routes" (VList [])) as [v | e] eqn:Hget.
  - destruct (iterate v) as [l | e] eqn:Hiter.
    + intros ->. exists r, routes_json, v. repeat split; assumption.
    + intros H. destruct before; discriminate H.
  - intros H. destruct before; discriminate H.
Qed.

(** C10, as amended. When the routes request is answered and one of its
    route records has no ['destination'] field, a run in which no request
    fails raises a builtin error, which the collection boundary does not
    catch: it neither returns rows nor skips the record.  The error is the
    [KeyError] of that record once the loop has been through the records
    before it.  A run in which a request fails returns the empty list
    instead. *)
Theorem missing_destination_raises net w before route after :
  let run := get_all_flights self origin_airport date net w in
  let k := length (exchanges w) in
  let rq := routes_request self origin_airport in
  failed (net k rq) = false ->
  routes_of self origin_airport net k = before ++ route :: after ->
  lacks_destination route ->
  (all_answered (made w (snd run)) -> exists e, fst run = Raise (BuiltinError e)) /\
  (forall rows w1,
     for_route self origin_airport date before [] net (logged w rq (net k rq)) = (Ret rows, w1) ->
     fst run = Raise (BuiltinError (KeyError "destination"))) /\
  (Exists (fun x => failed (snd x) = true) (made w (snd run)) -> fst run = Ret []).
Proof.
  intros run k rq Hanswered Hroutes Hlacks.
  assert (Hfailure : Exists (fun x => failed (snd x) = true) (made w (snd run)) ->
                     fst run = Ret []).
  { unfold run. destruct (get_all_flights_run net w) as (new & Hex & _ & Hempty).
    rewrite (made_app _ _ _ Hex). exact Hempty. }
  split; [| split; [| exact Hfailure]].
  - intros Hall. unfold run in *.
    destruct (fst (get_all_flights self origin_airport date net w)) as [rows | [msg | e]] eqn:Hfst.
    + exfalso.
      destruct (successful_run net w rows Hall Hfst) as [Hdest _].
      fold k in Hdest. rewrite Hroutes in Hdest.
      apply Forall_app in Hdest. destruct Hdest as [_ Hdest].
      apply Forall_inv in Hdest. destruct Hdest as [d Hd].
      rewrite (lacks_destination_subscript _ Hlacks) in Hd. discriminate.
    + exfalso. revert Hfst. rewrite get_all_flights_unfold.
      destruct (get_all_flights_try self origin_airport date net w) as [[rows | [m | e]] w1];
        discriminate.
    + exists e. reflexivity.
  - intros rows w1 Hloop. subst run k rq.
    destruct (routes_of_answered net _ before route after Hanswered Hroutes)
      as (r & routes_json & v & Hnet & Hstatus & Hbody & Hget & Hiter).
    rewrite get_all_flights_unfold, get_all_flights_try_unfold. cbv zeta.
    rewrite Hnet in Hloop |- *. rewrite Hstatus, Hbody, Hget, Hiter.
    rewrite for_route_app, Hloop, for_route_cons.
    rewrite (lacks_destination_subscript _ Hlacks). reflexivity.
Qed.

End Collector.

(** ** The report writer *)

Section ReportWriter.

Variable str_float : R -> string.
Variable str_value : value -> string.

Lemma append_assoc (a b c : string) : ((a ++ b) ++ c = a ++ (b ++ c))%string.
Proof. induction a as [| ch a IH]; cbn; [reflexivity | rewrite IH; reflexivity]. Qed.

Lemma append_empty_r (a : string) : (a ++ "")%string = a.
Proof. induction a as [| ch a IH]; cbn; [reflexivity | rewrite IH; reflexivity]. Qed.

Lemma lookup_set_file (name text : string) (fs : list (string * string)) :
  lookup name (set_file name text fs) = Some text.
Proof.
  induction fs as [| [n t] rest IH]; cbn.
  - rewrite String.eqb_refl. reflexivity.
  - destruct (String.eqb n name) eqn:E; cbn; rewrite E; [reflexivity | exact IH].
Qed.

Lemma bind_returns {A B : Type} (c : M A) (k : A -> M B) net w a w' :
  c net w = (Ret a, w') -> bind c k net w = k a net w'.
Proof. intros H. unfold bind. rewrite H. reflexivity. Qed.

Lemma write_run (file text old : string) net w :
  file_content file w = Some old ->
  write file text net w
  = (Ret tt, mkWorld (exchanges w) (stdout w) (set_file file (old ++ text)%string (files w))).
Proof. intros H. unfold write. rewrite H. reflexivity. Qed.

(** Writing rows appends their lines to the file and touches nothing
    else. *)
Lemma writerows_run (file : string) (data : list (list cell)) :
  forall net w old,
    file_content file w = Some old ->
    let run := writerows str_float str_value file data net w in
    fst run = Ret tt /\
    file_content file (snd run)
    = Some (old ++ text_of (map (csv_line str_float str_value) data))%string /\
    exchanges (snd run) = exchanges w /\ stdout (snd run) = stdout w.
Proof.
  induction data as [| r rest IH]; intros net w old Hold; cbn [writerows].
  - cbn. rewrite append_empty_r. repeat split; try reflexivity. exact Hold.
  - unfold writerow.
    rewrite (bind_returns _ _ _ _ _ _ (write_run _ _ _ net w Hold)).
    set (w1 := mkWorld _ _ _).
    assert (H1 : file_content file w1 = Some (old ++ csv_line str_float str_value r)%string).
    { unfold file_content, w1. cbn [files]. apply lookup_set_file. }
    destruct (IH net w1 _ H1) as (Hret & Hfile & Hex & Hout).
    cbv zeta in *. repeat split; try assumption.
    rewrite Hfile, append_assoc. reflexivity.
Qed.

Lemma save_to_csv_run (data : list (list cell)) (filename : string) net w :
  let run := save_to_csv str_float str_value data filename net w in
  fst run = Ret tt /\
  file_content filename (snd run)
  = Some (text_of (map (csv_line str_float str_value) (header :: data))) /\
  exchanges (snd run) = exchanges w /\ stdout (snd run) = stdout w.
Proof.
  unfold save_to_csv.
  set (w0 := mkWorld (exchanges w) (stdout w) (set_file filename "" (files w))).
  rewrite (bind_returns _ _ net w filename w0) by reflexivity.
  assert (H0 : file_content filename w0 = Some "").
  { unfold file_content, w0. cbn [files]. apply lookup_set_file. }
  unfold writerow.
  rewrite (bind_returns _ _ _ _ _ _ (write_run _ _ _ net w0 H0)).
  cbn [String.append].
  set (w1 := mkWorld _ _ _).
  assert (H1 : file_content filename w1 = Some (csv_line str_float str_value header)).
  { unfold file_content, w1. cbn [files]. apply lookup_set_file. }
  destruct (writerows_run filename data net w1 _ H1) as (Hret & Hfile & Hex & Hout).
  cbv zeta in *. repeat split; assumption.
Qed.

Lemma header_line :
  csv_line str_float str_value header
  = ("Distance (km),Destination,Lowest Price" ++ lineterminator)%string.
Proof. reflexivity. Qed.


Lemma print_run (line : string) net w :
  print line net w = (Ret tt, mkWorld (exchanges w) (stdout w ++ [line]) (files w)).
Proof. reflexivity. Qed.

(** After a collection in which a request failed, [main] writes the header
    alone and prints an empty table. *)
Lemma main_after_failure net w :
  Exists (fun x => failed (snd x) = true)
         (made w (snd (get_all_flights collector "LGW" "2024-12-01" net w))) ->
  fst (main str_float str_value net w) = Ret tt /\
  file_content "easyjet_flights.csv" (snd (main str_float str_value net w))
  = Some (csv_line str_float str_value header).
Proof.
  intros Hfail.
  destruct (get_all_flights_run collector "LGW" "2024-12-01" net w)
    as (new & Hex & _ & Hempty).
  rewrite (made_app _ _ _ Hex) in Hfail. specialize (Hempty Hfail).
  destruct (get_all_flights collector "LGW" "2024-12-01" net w) as [res w1] eqn:Hrun.
  cbn [fst] in Hempty. subst res.
  unfold main. cbv zeta. fold collector.
  rewrite (bind_returns _ _ net w [] w1 Hrun).
  cbn [sort_by_distance fold_left map].
  destruct (save_to_csv_run [] "easyjet_flights.csv" net w1) as (Hret & Hfile & _ & _).
  destruct (save_to_csv str_float str_value [] "easyjet_flights.csv" net w1)
    as [r2 w2] eqn:Hsave.
  cbn [fst snd] in Hret, Hfile. subst r2.
  rewrite (bind_returns _ _ net w1 tt w2 Hsave).
  rewrite (bind_returns _ _ _ _ _ _ (print_run _ net _)).
  rewrite (bind_returns _ _ _ _ _ _ (print_run _ net _)).
  rewrite (bind_returns _ _ _ _ _ _ (print_run _ net _)).
  cbn [print_rows]. unfold ret. cbn [fst snd].
  split; [reflexivity |].
  unfold file_content in *. cbn [files]. rewrite Hfile. cbn [map text_of fold_right].
  rewrite append_empty_r. reflexivity.
Qed.

(** C8. [save_to_csv] writes the header row, of the three column names
    Distance (km), Destination and Lowest Price, and then one line for each
    row, in the order of the rows; with no row, as after a failed
    collection, the file holds the header and nothing else. *)
Theorem save_to_csv_header_then_rows (data : list (list cell)) (filename : string) net w :
  let run := save_to_csv str_float str_value data filename net w in
  let header_text := ("Distance (km),Destination,Lowest Price" ++ lineterminator)%string in
  fst run = Ret tt /\
  file_content filename (snd run)
  = Some (header_text ++ text_of (map (csv_line str_float str_value) data))%string /\
  file_content filename (snd (save_to_csv str_float str_value [] filename net w))
  = Some header_text /\
  (Exists (fun x => failed (snd x) = true)
          (made w (snd (get_all_flights collector "LGW" "2024-12-01" net w))) ->
   file_content "easyjet_flights.csv" (snd (main str_float str_value net w))
   = Some header_text).
Proof.
  cbv zeta.
  destruct (save_to_csv_run data filename net w) as (Hret & Hfile & _ & _).
  destruct (save_to_csv_run [] filename net w) as (_ & Hnone & _ & _).
  cbv zeta in *. rewrite <- header_line.
  split; [exact Hret |]. split; [exact Hfile |]. split.
  - rewrite Hnone. cbn [map text_of fold_right]. rewrite append_empty_r. reflexivity.
  - intros Hfail. apply main_after_failure. exact Hfail.
Qed.

End ReportWriter.

(** ** The conversion to a float *)

Section FloatConversion.

Local Open Scope Q_scope.

Lemma round_half_even_Q_close (q : Q) :
  Qabs (inject_Z (round_half_even_Q q) - q) <= 1 # 2.
Proof.
  unfold round_half_even_Q.
  pose proof (Qfloor_le q) as Hlo. pose proof (Qlt_floor q) as Hhi.
  assert (Hsucc : forall z, inject_Z (z + 1) == inject_Z z + 1).
  { intros z. rewrite inject_Z_plus. reflexivity. }
  rewrite Hsucc in Hhi.
  set (n := Qfloor q) in *.
  apply Qabs_Qle_condition.
  destruct (Qcompare (q - inject_Z n) (1 # 2)) eqn:Hc.
  - apply Qeq_alt in Hc.
    destruct (Z.even n); [| rewrite Hsucc]; split; Lqa.lra.
  - apply Qlt_alt in Hc. split; Lqa.lra.
  - apply Qgt_alt in Hc. rewrite Hsucc. split; Lqa.lra.
Qed.

(** A number that is an integer is its own rounding. *)
Lemma round_half_even_Q_integer (q : Q) (k : Z) :
  (q == inject_Z k)%Q -> round_half_even_Q q = k.
Proof.
  intros Hq. unfold round_half_even_Q.
  assert (Hf : Qfloor q = k) by (rewrite (Qfloor_comp _ _ Hq); apply Qfloor_Z).
  rewrite Hf.
  assert (Hlt : (q - inject_Z k < 1 # 2)%Q) by (rewrite Hq; Lqa.lra).
  destruct (Qcompare (q - inject_Z k) (1 # 2)) eqn:Hc.
  - apply Qeq_alt in Hc. exfalso. Lqa.lra.
  - reflexivity.
  - apply Qgt_alt in Hc. exfalso. Lqa.lra.
Qed.


Lemma two_power_Z (n : Z) : (0 <= n)%Z -> 2 ^ n == inject_Z (2 ^ n).
Proof. intros Hn. symmetry. exact (Zpower_Qpower 2 n Hn). Qed.

(** [floor_log2 a] is the exponent of the power of two at or below [a]. *)
Lemma floor_log2_spec (a : Q) :
  0 < a -> 2 ^ floor_log2 a <= a /\ a < 2 ^ (floor_log2 a + 1).
Proof.
  intros Ha. unfold floor_log2.
  destruct (Qle_bool 1 a) eqn:Hone.
  - apply Qle_bool_iff in Hone.
    set (n := Qfloor a).
    assert (Hn : (1 <= n)%Z).
    { unfold n. rewrite <- (Qfloor_Z 1). apply Qfloor_resp_le. exact Hone. }
    destruct (Z.log2_spec n) as [Hlo Hhi]; [lia |].
    assert (Hl : (0 <= Z.log2 n)%Z) by apply Z.log2_nonneg.
    split.
    + rewrite two_power_Z by exact Hl.
      apply Qle_trans with (inject_Z n); [rewrite <- Zle_Qle; exact Hlo | apply Qfloor_le].
    + rewrite two_power_Z by lia.
      apply Qlt_le_trans with (inject_Z (n + 1)); [apply Qlt_floor |].
      rewrite <- Zle_Qle.
      assert (Hhi' : (n < 2 ^ (Z.log2 n + 1))%Z).
      { replace (Z.log2 n + 1)%Z with (Z.succ (Z.log2 n)) by (unfold Z.succ; lia). exact Hhi. }
      lia.
  - assert (Hlt : a < 1).
    { apply Qnot_le_lt. intros H. apply Qle_bool_iff in H. congruence. }
    assert (Hb : 1 < / a).
    { apply Qlt_shift_inv_l; [exact Ha | Lqa.lra]. }
    set (b := / a) in *.
    assert (Hbpos : 0 < b) by (apply Qlt_trans with 1; [reflexivity | exact Hb]).
    assert (Hab : a == / b) by (unfold b; rewrite Qinv_involutive; reflexivity).
    set (c := Qceiling b).
    pose proof (Qle_ceiling b) as Hc1. pose proof (Qceiling_lt b) as Hc2. fold c in Hc1, Hc2.
    assert (Hc : (1 < c)%Z).
    { rewrite Zlt_Qlt. apply Qlt_le_trans with b; assumption. }
    destruct (Z.log2_up_spec c Hc) as [Hlo Hhi].
    pose proof (Z.log2_up_pos c Hc) as Hu.
    set (U := Z.log2_up c) in *.
    assert (HP : 0 < 2 ^ U) by (apply Qpower_0_lt; reflexivity).
    assert (HP' : 0 < 2 ^ (U - 1)) by (apply Qpower_0_lt; reflexivity).
    split.
    + rewrite Qpower_opp, Hab.
      assert (HbP : b <= 2 ^ U).
      { rewrite two_power_Z by lia.
        apply Qle_trans with (inject_Z c); [exact Hc1 | rewrite <- Zle_Qle; exact Hhi]. }
      apply Qle_shift_inv_l; [exact Hbpos |].
      assert (E : / 2 ^ U * b == b / 2 ^ U) by (field; Lqa.lra).
      rewrite E. apply Qle_shift_div_r; [exact HP | Lqa.lra].
    + replace (- U + 1)%Z with (- (U - 1))%Z by lia.
      rewrite Qpower_opp, Hab.
      apply (proj1 (Qinv_lt_contravar (2 ^ (U - 1)) b HP' Hbpos)).
      rewrite two_power_Z by lia.
      apply Qle_lt_trans with (inject_Z (c - 1)); [| exact Hc2].
      rewrite <- Zle_Qle.
      assert (Hlo' : (2 ^ (U - 1) < c)%Z).
      { replace (U - 1)%Z with (Z.pred U) by (unfold Z.pred; lia). exact Hlo. }
      lia.
Qed.


Lemma round_half_even_Q_bounds (y : Q) (k : Z) :
  0 <= y -> y < inject_Z k -> (0 <= round_half_even_Q y <= k)%Z.
Proof.
  intros H0 Hk. pose proof (round_half_even_Q_close y) as Hc.
  apply Qabs_Qle_condition in Hc. destruct Hc as [Hlo Hhi].
  set (m := round_half_even_Q y) in *.
  split.
  - assert (H : (-1 < m)%Z); [| lia].
    rewrite Zlt_Qlt. change (inject_Z (-1)) with (- 1). Lqa.lra.
  - assert (H : (m < k + 1)%Z); [| lia].
    rewrite Zlt_Qlt, inject_Z_plus. change (inject_Z 1) with 1. Lqa.lra.
Qed.

(** [float(q)] is a number with a mantissa of at most 53 bits and an
    exponent not below -1074, within half a unit of the last place of
    [q]. *)
Lemma float_of_nearest (q x : Q) :
  float_of q = Ok x ->
  exists m e : Z,
    x == (if Qlt_bool q 0 then - 1 else 1) * (inject_Z m * 2 ^ e) /\
    (0 <= m <= 2 ^ 53)%Z /\ (-1074 <= e)%Z /\
    Qabs (x - q) <= 2 ^ e / 2 /\
    inject_Z m * 2 ^ e < 2 ^ 1024 /\
    (q == 0 \/ e = (-1074)%Z \/ 2 ^ (e + 52) <= Qabs q).
Proof.
  unfold float_of.
  destruct (Qeq_bool q 0) eqn:Hzero.
  { apply Qeq_bool_eq in Hzero. intros H. injection H as <-.
    exists 0%Z, (-1074)%Z.
    assert (HP : 0 < 2 ^ (-1074)) by (apply Qpower_0_lt; reflexivity).
    split; [destruct (Qlt_bool q 0); change (inject_Z 0) with 0; ring |].
    split; [lia |]. split; [lia |].
    split.
    - rewrite Hzero. setoid_replace (0 - 0) with 0 by ring.
      change (Qabs 0) with 0. apply Qle_shift_div_l; [reflexivity | Lqa.lra].
    - split; [| left; exact Hzero].
      change (inject_Z 0) with 0. rewrite Qmult_0_l. apply Qpower_0_lt. reflexivity. }
  assert (Hq : ~ q == 0).
  { intros H. apply Qeq_eq_bool in H. congruence. }
  assert (Ha : 0 < Qabs q).
  { destruct (Qlt_le_dec 0 (Qabs q)) as [H | H]; [exact H |].
    exfalso. apply Hq. pose proof (Qabs_nonneg q) as Hn.
    assert (E : Qabs q <= 0) by Lqa.lra.
    apply Qabs_Qle_condition in E. Lqa.lra. }
  destruct (floor_log2_spec (Qabs q) Ha) as [Hlo Hhi].
  set (a := Qabs q) in *. set (L := floor_log2 a) in *.
  set (e := Z.max (L - 52) (-1074)).
  assert (HP : 0 < 2 ^ e) by (apply Qpower_0_lt; reflexivity).
  set (P := 2 ^ e) in *.
  set (y := a / P).
  assert (Hy : y * P == a) by (unfold y; field; Lqa.lra).
  assert (Hy0 : 0 <= y).
  { unfold y. apply Qle_shift_div_l; [exact HP | Lqa.lra]. }
  assert (Hy1 : y < inject_Z (2 ^ 53)).
  { unfold y. apply Qlt_shift_div_r; [exact HP |].
    apply Qlt_le_trans with (2 ^ (L + 1)); [exact Hhi |].
    rewrite <- (two_power_Z 53) by lia. unfold P.
    rewrite <- Qpower_plus by discriminate.
    apply Qpower_le_compat_l; [unfold e; lia | discriminate]. }
  pose proof (round_half_even_Q_bounds y _ Hy0 Hy1) as Hm.
  pose proof (round_half_even_Q_close y) as Hclose.
  set (m := round_half_even_Q y) in *.
  destruct (Qle_bool (2 ^ 1024) (inject_Z m * P)) eqn:Hover; [discriminate |].
  intros H. injection H as <-.
  exists m, e. fold P.
  split; [rewrite Qred_correct; destruct (Qlt_bool q 0); ring |].
  split; [exact Hm |]. split; [unfold e; lia |].
  split; [| split].
  - assert (Hdiff : Qabs (inject_Z m * P - a) <= P / 2).
    { setoid_replace (inject_Z m * P - a) with ((inject_Z m - y) * P)
        by (rewrite <- Hy; ring).
      rewrite Qabs_Qmult, (Qabs_pos P) by Lqa.lra.
      setoid_replace (P / 2) with ((1 # 2) * P) by field.
      apply Qmult_le_compat_r; [exact Hclose | Lqa.lra]. }
    rewrite Qred_correct.
    destruct (Qlt_bool q 0) eqn:Hneg.
    + apply Qlt_bool_iff in Hneg.
      assert (Eq : q == - a) by (unfold a; rewrite Qabs_neg by Lqa.lra; ring).
      setoid_replace (- (inject_Z m * P) - q) with (- (inject_Z m * P - a))
        by (rewrite Eq; ring).
      rewrite Qabs_opp. exact Hdiff.
    + assert (Hpos : 0 <= q).
      { apply Qnot_lt_le. intros Hc. apply Qlt_bool_iff in Hc. congruence. }
      assert (Eq : q == a) by (unfold a; rewrite Qabs_pos by exact Hpos; reflexivity).
      rewrite Eq. exact Hdiff.
  - apply Qnot_le_lt. intros Hc. apply Qle_bool_iff in Hc. congruence.
  - right. destruct (Z.max_spec (L - 52) (-1074)) as [[_ E] | [_ E]]; fold e in E.
    + left. exact E.
    + right. rewrite E. replace (L - 52 + 52)%Z with L by lia. exact Hlo.
Qed.


(** A number of magnitude [2 ^ 1024] or more does not convert. *)
Lemma float_of_overflow (q : Q) :
  2 ^ 1024 <= Qabs q -> float_of q = Err OverflowError.
Proof.
  intros Hbig.
  assert (Hbigpos : 0 < 2 ^ 1024) by (apply Qpower_0_lt; reflexivity).
  assert (Ha : 0 < Qabs q) by Lqa.lra.
  unfold float_of.
  destruct (Qeq_bool q 0) eqn:Hzero.
  { exfalso. apply Qeq_bool_eq in Hzero. rewrite Hzero in Ha. discriminate Ha. }
  destruct (floor_log2_spec (Qabs q) Ha) as [Hlo Hhi].
  set (a := Qabs q) in *. set (L := floor_log2 a) in *.
  assert (HL : (1024 <= L)%Z).
  { assert (H : (1024 < L + 1)%Z); [| lia].
    apply (Qpower_lt_compat_l_inv 2); [Lqa.lra | reflexivity]. }
  assert (He : Z.max (L - 52) (-1074) = (L - 52)%Z) by lia.
  rewrite He.
  assert (HP : 0 < 2 ^ (L - 52)) by (apply Qpower_0_lt; reflexivity).
  assert (HLP : 2 ^ L == inject_Z (2 ^ 52) * 2 ^ (L - 52)).
  { rewrite <- (two_power_Z 52) by lia. rewrite <- Qpower_plus by discriminate.
    replace (52 + (L - 52))%Z with L by lia. reflexivity. }
  set (P := 2 ^ (L - 52)) in *.
  set (y := a / P).
  assert (Hy : inject_Z (2 ^ 52) <= y).
  { unfold y. apply Qle_shift_div_l; [exact HP | Lqa.lra]. }
  pose proof (round_half_even_Q_close y) as Hclose.
  apply Qabs_Qle_condition in Hclose. destruct Hclose as [Hc _].
  set (m := round_half_even_Q y) in *.
  assert (Hm : (2 ^ 52 <= m)%Z).
  { assert (H : (2 ^ 52 - 1 < m)%Z); [| lia].
    rewrite Zlt_Qlt. unfold Z.sub. rewrite inject_Z_plus.
    change (inject_Z (- (1))) with (- 1). Lqa.lra. }
  assert (Hv : 2 ^ 1024 <= inject_Z m * P).
  { apply Qle_trans with (2 ^ L).
    - apply Qpower_le_compat_l; [exact HL | discriminate].
    - rewrite HLP. apply Qmult_le_compat_r; [| Lqa.lra].
      rewrite <- Zle_Qle. exact Hm. }
  apply Qle_bool_iff in Hv. rewrite Hv. reflexivity.
Qed.

(** The conversion to a float leaves an integer of at most 53 bits as it
    is. *)
Lemma float_of_small_integer (n : Z) (x : Q) :
  (Z.abs n <= 2 ^ 53)%Z -> float_of (inject_Z n) = Ok x -> (x == inject_Z n)%Q.
Proof.
  intros Hn.
  destruct (Z.eq_dec (Z.abs n) (2 ^ 53)) as [Htop | Hbelow].
  { assert (Hc : n = (2 ^ 53)%Z \/ n = (- 2 ^ 53)%Z) by lia.
    destruct Hc as [-> | ->]; vm_compute; intros H; injection H as <-; reflexivity. }
  assert (Hlt : (Z.abs n < 2 ^ 53)%Z) by lia. clear Hn Hbelow.
  unfold float_of.
  destruct (Qeq_bool (inject_Z n) 0) eqn:Hzero.
  { apply Qeq_bool_eq in Hzero. intros H. injection H as <-. symmetry. exact Hzero. }
  assert (Hnz : n <> 0%Z).
  { intros ->. discriminate Hzero. }
  assert (Ha : (Qabs (inject_Z n) == inject_Z (Z.abs n))%Q) by reflexivity.
  set (a := Qabs (inject_Z n)) in *.
  assert (Hlog : floor_log2 a = Z.log2 (Z.abs n)).
  { unfold floor_log2.
    assert (H1 : Qle_bool 1 a = true).
    { apply Qle_bool_iff. rewrite Ha. change 1%Q with (inject_Z 1).
      rewrite <- Zle_Qle. lia. }
    rewrite H1, (Qfloor_comp _ _ Ha), Qfloor_Z. reflexivity. }
  rewrite Hlog.
  assert (Hl : (0 <= Z.log2 (Z.abs n) < 53)%Z).
  { split; [apply Z.log2_nonneg |]. apply Z.log2_lt_pow2; lia. }
  set (t := (52 - Z.log2 (Z.abs n))%Z).
  assert (He : Z.max (Z.log2 (Z.abs n) - 52) (-1074) = (- t)%Z) by (unfold t; lia).
  rewrite He.
  assert (Ht : (0 <= t)%Z) by (unfold t; lia).
  set (P := (2 ^ t)%Q).
  assert (HP : (P == inject_Z (2 ^ t))%Q).
  { unfold P. symmetry. apply (Zpower_Qpower 2 t Ht). }
  assert (HPpos : (0 < P)%Q) by (apply Qpower_0_lt; reflexivity).
  assert (Hinv : (2 ^ (- t) == / P)%Q) by apply Qpower_opp.
  assert (Hk : (a / 2 ^ (- t) == inject_Z (Z.abs n * 2 ^ t))%Q).
  { rewrite Hinv, inject_Z_mult, <- HP, <- Ha. field. Lqa.lra. }
  rewrite (round_half_even_Q_integer _ _ Hk).
  assert (Hv : (inject_Z (Z.abs n * 2 ^ t) * 2 ^ (- t) == a)%Q).
  { rewrite Hinv, inject_Z_mult, <- HP, <- Ha. field. Lqa.lra. }
  destruct (Qle_bool (2 ^ 1024) (inject_Z (Z.abs n * 2 ^ t) * 2 ^ (- t))) eqn:Hover.
  { discriminate. }
  intros H. injection H as <-. rewrite Qred_correct.
  destruct (Qlt_bool (inject_Z n) 0) eqn:Hneg.
  - apply Qlt_bool_iff in Hneg. rewrite Hv. unfold a.
    rewrite Qabs_neg by Lqa.lra. Lqa.lra.
  - rewrite Hv. unfold a. apply Qabs_pos.
    apply Qnot_lt_le. intros Hc. apply Qlt_bool_iff in Hc. congruence.
Qed.

End FloatConversion.

(** ** The console table *)

Section ConsoleTable.

Variable str_value : value -> string.

Lemma len_append (a b : string) : len (a ++ b) = len a + len b.
Proof.
  induction a as [| ch a IH]; cbn [String.append len]; [reflexivity |].
  destruct (continuation_byte ch); rewrite IH; reflexivity.
Qed.

Lemma spaces_padding (n : nat) : spaces n = padding n.
Proof. induction n as [| n IH]; cbn; [reflexivity | rewrite IH; reflexivity]. Qed.

Lemma len_padding (n : nat) : len (padding n) = n.
Proof. induction n as [| n IH]; cbn; [reflexivity | rewrite <- IH at 2; reflexivity]. Qed.

Lemma ljust_padding (width : nat) (s : string) :
  ljust width s = (s ++ padding (width - len s))%string /\
  len (s ++ padding (width - len s)) = Nat.max width (len s).
Proof.
  unfold ljust. rewrite spaces_padding, len_append, len_padding. split; [reflexivity | lia].
Qed.

Lemma rjust_padding (width : nat) (s : string) :
  rjust width s = (padding (width - len s) ++ s)%string /\
  len (padding (width - len s) ++ s) = Nat.max width (len s).
Proof.
  unfold rjust. rewrite spaces_padding, len_append, len_padding. split; [reflexivity | lia].
Qed.

Lemma length_append (a b : string) :
  String.length (a ++ b) = String.length a + String.length b.
Proof. induction a as [| ch a IH]; cbn; [reflexivity | rewrite IH; reflexivity]. Qed.

(** A byte below 128 is a character of its own. *)
Lemma ascii_not_continuation (c : ascii) :
  nat_of_ascii c < 128 -> continuation_byte c = false.
Proof.
  destruct c as [b0 b1 b2 b3 b4 b5 b6 b7]. destruct b7; [| destruct b6; reflexivity].
  intros H. exfalso.
  destruct b0, b1, b2, b3, b4, b5, b6; vm_compute in H; lia.
Qed.

Lemma len_ascii (s : string) :
  Forall (fun c => nat_of_ascii c < 128) (list_ascii_of_string s) ->
  len s = String.length s.
Proof.
  induction s as [| c s IH]; cbn [list_ascii_of_string len String.length]; intros H.
  - reflexivity.
  - apply Forall_cons_iff in H. destruct H as [Hc Hs].
    rewrite (ascii_not_continuation c Hc), (IH Hs). reflexivity.
Qed.

Lemma len_string_of_uint (d : Decimal.uint) :
  len (NilEmpty.string_of_uint d) = String.length (NilEmpty.string_of_uint d).
Proof. induction d; cbn; congruence. Qed.

Lemma len_decimal (n : Z) : len (decimal n) = String.length (decimal n).
Proof.
  unfold decimal, NilZero.string_of_uint.
  destruct (N.to_uint (Z.to_N n)); first [reflexivity | apply len_string_of_uint].
Qed.

(** The text of a number with two decimals is made of characters of one
    byte. *)
Lemma len_fixed2 (sign : string) (h : Z) :
  len sign = String.length sign ->
  len (sign ++ decimal (h / 100) ++ "." ++ two_digits (h mod 100))
  = String.length (sign ++ decimal (h / 100) ++ "." ++ two_digits (h mod 100)).
Proof.
  intros Hsign. unfold two_digits.
  rewrite !len_append, !length_append, !len_decimal, Hsign. reflexivity.
Qed.

Lemma digits_value_decimal (n : Z) : (0 <= n)%Z -> digits_value (decimal n) = Some n.
Proof.
  intros Hn. unfold digits_value, decimal.
  rewrite NilZero.usu.
  - cbn [option_map]. f_equal.
    change (Z.of_uint (N.to_uint (Z.to_N n))) with (Z.of_N (N.of_uint (N.to_uint (Z.to_N n)))).
    rewrite DecimalN.Unsigned.of_to. apply Z2N.id. exact Hn.
  - destruct (Z.to_N n) as [| p]; [discriminate |].
    apply DecimalPos.Unsigned.to_uint_nonnil.
Qed.

Lemma two_digits_value (n : Z) :
  (0 <= n < 100)%Z ->
  digits_value (two_digits n) = Some n /\ String.length (two_digits n) = 2.
Proof.
  intros Hn.
  assert (Hall : forallb (fun k => match digits_value (two_digits (Z.of_nat k)) with
                                   | Some v => Z.eqb v (Z.of_nat k)
                                               && Nat.eqb (String.length (two_digits (Z.of_nat k))) 2
                                   | None => false
                                   end) (seq 0 100) = true) by (vm_compute; reflexivity).
  rewrite forallb_forall in Hall.
  specialize (Hall (Z.to_nat n)). rewrite Z2Nat.id in Hall by lia.
  assert (Hin : In (Z.to_nat n) (seq 0 100)) by (apply in_seq; lia).
  specialize (Hall Hin).
  destruct (digits_value (two_digits n)) as [v |]; [| discriminate].
  apply andb_prop in Hall. destruct Hall as [Hv Hl].
  apply Z.eqb_eq in Hv. apply Nat.eqb_eq in Hl. subst v. split; [reflexivity | exact Hl].
Qed.

Lemma round_half_even_close (x : R) :
  (Rabs (IZR (round_half_even x) - x) <= 1 / 2)%R.
Proof.
  unfold round_half_even.
  destruct (base_fp x) as [Hf0 Hf1]. unfold frac_part in *.
  set (n := Int_part x) in *.
  apply Rabs_le.
  destruct (Rlt_dec (x - IZR n) (1 / 2)) as [Hlt | Hge]; [lra |].
  destruct (Rlt_dec (1 / 2) (x - IZR n)) as [Hgt | Hle].
  - rewrite plus_IZR. lra.
  - destruct (Z.even n); [lra | rewrite plus_IZR; lra].
Qed.


End ConsoleTable.

Lemma float_2f_zero : float_2f 0 = "0.00".
Proof.
  unfold float_2f. rewrite Rmult_0_l, round_half_even_IZR.
  destruct (Rlt_dec 0 0) as [H | _]; [exfalso; lra | reflexivity].
Qed.



(** ** Sample runs *)



(** C4, as stated, fails: Paris has the flights value [null], which is not
    an empty list, and gives no row: one row for two routes, none of which
    has an empty flights list. *)
Lemma null_flights_give_no_row :
  let run := get_all_flights collector "LGW" "2024-12-01" net_null_flights initial in
  let routes := numbered 1 (routes_of collector "LGW" net_null_flights 0) in
  let flights := fun kr : nat * value =>
    flights_of collector "LGW" "2024-12-01" net_null_flights (fst kr) (snd kr) in
  all_answered (made initial (snd run)) /\
  fst run = Ret [(calculate_distance collector "LGW" "BCN", VStr "BCN", VNum (Fin 80%Q))] /\
  length (routes_of collector "LGW" net_null_flights 0) = 2 /\
  length (filter (fun kr => is_empty_list (flights kr)) routes) = 0.
Proof.
  intros run routes flights.
  split; [lazy -[calculate_distance]; repeat constructor |].
  split; [lazy -[calculate_distance]; reflexivity |].
  split; reflexivity.
Qed.

(** Barcelona has flights and Paris has [null]: one row, for Barcelona. *)
Lemma rows_follow_routes_witness :
  let run := get_all_flights collector "LGW" "2024-12-01" net_null_flights initial in
  let rows := [(calculate_distance collector "LGW" "BCN", VStr "BCN", VNum (Fin 80%Q))] in
  let routes := numbered 1 (routes_of collector "LGW" net_null_flights 0) in
  let flights := fun kr : nat * value =>
    flights_of collector "LGW" "2024-12-01" net_null_flights (fst kr) (snd kr) in
  all_answered (made initial (snd run)) /\
  fst run = Ret rows /\
  map row_destination rows =
    map (fun kr => destination_of (snd kr))
        (filter (fun kr => truthy (flights kr)) routes) /\
  length rows =
    length (routes_of collector "LGW" net_null_flights 0)
    - length (filter (fun kr => negb (truthy (flights kr))) routes).
Proof.
  intros run rows routes flights.
  assert (Hall : all_answered (made initial (snd run))).
  { lazy -[calculate_distance]. repeat constructor. }
  assert (Hret : fst run = Ret rows) by (lazy -[calculate_distance]; reflexivity).
  split; [exact Hall |]. split; [exact Hret |].
  destruct (rows_follow_routes collector "LGW" "2024-12-01" net_null_flights initial rows
              Hall Hret) as (_ & Hdest & Hlen & _).
  split; [exact Hdest | exact Hlen].
Defined.

(** Fares 120, none and 80: the row of Barcelona carries 80. *)
Lemma row_price_is_lowest_fare_witness :
  let run := get_all_flights collector "LGW" "2024-12-01" net_sample initial in
  let rows := [(calculate_distance collector "LGW" "BCN", VStr "BCN", VNum (Fin 80%Q))] in
  let xs := [Fin 120%Q; Inf; Fin 80%Q] in
  fst run = Ret rows /\
  exists r m,
    nth_error rows 0 = Some r /\
    row_destination r = VStr "BCN" /\
    row_price r = VNum m /\
    is_minimum m xs /\
    (finite_fares xs <> [] -> is_minimum m (finite_fares xs)).
Proof.
  intros run rows xs.
  assert (Hall : all_answered (made initial (snd run))).
  { lazy -[calculate_distance]. repeat constructor. }
  assert (Hret : fst run = Ret rows) by (lazy -[calculate_distance]; reflexivity).
  split; [exact Hret |].
  apply (row_price_is_lowest_fare collector "LGW" "2024-12-01" net_sample initial rows
           [] (route_to "BCN") [route_to "CDG"]
           [flight_at 120%Q; VDict []; flight_at 80%Q] xs Hall Hret).
  - reflexivity.
  - reflexivity.
  - discriminate.
  - reflexivity.
Defined.

(** C10, as stated, fails: the second route record has no ['destination']
    field, the flights request for the first one fails, and the call
    returns the empty list instead of raising. *)
Lemma missing_destination_after_failure :
  let net := net_fails_before_bad_route in
  failed (net 0 (routes_request collector "LGW")) = false /\
  routes_of collector "LGW" net 0 = [route_to "BCN"; VDict []] /\
  lacks_destination (VDict []) /\
  fst (get_all_flights collector "LGW" "2024-12-01" net initial) = Ret [].
Proof.
  split; [reflexivity |]. split; [reflexivity |]. split.
  - exists []. split; reflexivity.
  - reflexivity.
Qed.

(** The second of three route records has no ['destination'] field and every
    request is answered: the call raises [KeyError]. *)
Lemma missing_destination_raises_witness :
  let net := net_bad_route in
  let route := VDict [("origin", VStr "LGW")] in
  failed (net 0 (routes_request collector "LGW")) = false /\
  routes_of collector "LGW" net 0 = [route_to "BCN"] ++ route :: [route_to "CDG"] /\
  lacks_destination route /\
  fst (get_all_flights collector "LGW" "2024-12-01" net initial)
  = Raise (BuiltinError (KeyError "destination")).
Proof.
  intros net route.
  assert (H1 : failed (net 0 (routes_request collector "LGW")) = false) by reflexivity.
  assert (H2 : routes_of collector "LGW" net 0 = [route_to "BCN"] ++ route :: [route_to "CDG"])
    by reflexivity.
  assert (H3 : lacks_destination route) by (eexists; split; reflexivity).
  split; [exact H1 |]. split; [exact H2 |]. split; [exact H3 |].
  eapply (proj1 (proj2 (missing_destination_raises collector "LGW" "2024-12-01" net initial
                          [route_to "BCN"] route [route_to "CDG"] H1 H2 H3))).
  lazy -[calculate_distance]. reflexivity.
Defined.

(** A collection that fails leaves a file with the header alone. *)
Lemma save_to_csv_header_then_rows_witness :
  let net := net_fails_late in
  let str := fun _ : R => "1109.59" in
  let header_text := ("Distance (km),Destination,Lowest Price" ++ lineterminator)%string in
  Exists (fun x => failed (snd x) = true)
         (made initial (snd (get_all_flights collector "LGW" "2024-12-01" net initial))) /\
  file_content "easyjet_flights.csv" (snd (main str (fun _ => "80.0") net initial))
  = Some header_text.
Proof.
  intros net str header_text.
  assert (H : Exists (fun x => failed (snd x) = true)
         (made initial (snd (get_all_flights collector "LGW" "2024-12-01" net initial)))).
  { lazy. apply Exists_cons_tl, Exists_cons_tl, Exists_cons_hd. reflexivity. }
  split; [exact H |].
  apply (save_to_csv_header_then_rows str (fun _ => "80.0") [] "easyjet_flights.csv"
           net initial). exact H.
Defined.

(** * Further properties of the code *)

(** ** The exceptions of the builtin operations *)

Section BuiltinErrors.

(** A comparison that fails fails with [TypeError]. *)
Lemma py_lt_error : forall (a b : value) (e : error), py_lt a b = Err e -> e = TypeError.
Proof.
  fix IH 1. intros a b e.
  destruct a as [| ba | x | s | xs | ea]; destruct b as [| bb | y | t | ys | eb];
    cbn [py_lt as_number];
    try (try destruct ba; try destruct bb; intros H;
         first [discriminate H | injection H as <-; reflexivity]).
  revert ys. induction xs as [| x xs IHxs]; intros [| y ys] H; try discriminate H.
  destruct (py_eq x y).
  - exact (IHxs ys H).
  - exact (IH x y e H).
Qed.

Lemma fare_error (flight : value) (e : error) : fare flight = Err e -> e = AttributeError.
Proof.
  unfold fare, dict_get.
  destruct flight as [| | | | | entries]; try (intros H; injection H as <-; reflexivity).
  destruct (lookup "pricing" entries) as [pricing |].
  - destruct pricing as [| | | | | inner]; try (intros H; injection H as <-; reflexivity).
    destruct (lookup "lowestFare" inner); discriminate.
  - cbn. discriminate.
Qed.

Lemma min_from_error (rest : list value) :
  forall current e, min_from current rest = Err e -> e = AttributeError \/ e = TypeError.
Proof.
  induction rest as [| flight rest IH]; intros current e; cbn [min_from].
  - discriminate.
  - destruct (fare flight) as [item | e1] eqn:Hfare.
    + destruct (py_lt item current) as [[|] | e2] eqn:Hlt.
      * apply IH.
      * apply IH.
      * intros H. injection H as <-. right. exact (py_lt_error _ _ _ Hlt).
    + intros H. injection H as <-. left. exact (fare_error _ _ Hfare).
Qed.

Lemma chars_not_empty (c : ascii) (s : string) : chars (String c s) <> [].
Proof.
  unfold chars. cbn [split_chars].
  destruct (split_chars s) as [pending cs].
  destruct (continuation_byte c); discriminate.
Qed.

(** X5. Under the guard [if flights:] the sequence handed to [min] is not
    empty: the expression of the lowest fare gives a value, or fails with
    [AttributeError] or [TypeError], never with the [ValueError] of [min] on
    an empty sequence. *)
Theorem guarded_min_is_not_empty (flights : value) (e : error) :
  truthy flights = true -> lowest_fare flights = Err e ->
  e <> ValueError /\ (e = AttributeError \/ e = TypeError).
Proof.
  unfold lowest_fare. intros Htruthy.
  assert (Hor : forall x : error,
            x = AttributeError \/ x = TypeError ->
            x <> ValueError /\ (x = AttributeError \/ x = TypeError)).
  { intros x Hx. split; [| exact Hx]. destruct Hx as [-> | ->]; discriminate. }
  destruct (iterate flights) as [[| flight rest] | e1] eqn:Hiter.
  - exfalso. destruct flights as [| | | s | items | entries]; try discriminate Hiter.
    + destruct s as [| c s]; [discriminate Htruthy |].
      injection Hiter as Hiter. exact (chars_not_empty c s Hiter).
    + destruct items; [discriminate Htruthy | discriminate Hiter].
    + destruct entries; [discriminate Htruthy | discriminate Hiter].
  - destruct (fare flight) as [first | e2] eqn:Hfare.
    + intros H. apply Hor. exact (min_from_error _ _ _ H).
    + intros H. injection H as <-. apply Hor. left. exact (fare_error _ _ Hfare).
  - intros H. injection H as <-. apply Hor. right.
    destruct flights; try discriminate Hiter; injection Hiter as <-; reflexivity.
Qed.


End BuiltinErrors.

(** ** More on the flight collector *)

Section CollectorTrace.

Variable self : EasyJetCollector.t.
Variables origin_airport date : string.

(** The cases of one turn of the loop. *)
Ltac loop_cases H :=
  rewrite for_route_cons in H; cbv zeta in H;
  repeat match type of H with
         | context [match ?x with _ => _ end] => destruct x eqn:?
         | context [if ?x then _ else _] => destruct x eqn:?
         end.

Lemma flights_exchange_answered net k route destination r :
  subscript route "destination" = Ok destination ->
  net k (flights_request self origin_airport destination date) = Answered r ->
  flights_exchange self origin_airport date net (k, route)
  = (flights_request self origin_airport destination date, Answered r).
Proof.
  intros Hsub Hnet. unfold flights_exchange, destination_of. cbn [fst snd].
  rewrite Hsub, Hnet. reflexivity.
Qed.

(** A loop that returns has made, in the order of the routes, the flights
    request of each route. *)
Lemma for_route_requests routes :
  forall flight_data net w rows w',
    for_route self origin_airport date routes flight_data net w = (Ret rows, w') ->
    exchanges w' = exchanges w ++
      map (flights_exchange self origin_airport date net)
          (numbered (length (exchanges w)) routes).
Proof.
  induction routes as [| route rest IH]; intros flight_data net w rows w' Hrun.
  - rewrite for_route_nil in Hrun. injection Hrun as _ <-.
    cbn. rewrite app_nil_r. reflexivity.
  - loop_cases Hrun; try discriminate;
      apply IH in Hrun; cbn [logged exchanges] in Hrun;
      rewrite length_app, Nat.add_comm in Hrun; cbn [length Nat.add] in Hrun;
      rewrite Hrun, <- app_assoc, numbered_cons; cbn [map app];
      erewrite flights_exchange_answered by eassumption; reflexivity.
Qed.

(** A loop that a request interrupts has made that request last, all the
    requests before it were answered, and the exception carries the message
    of the failure. *)
Lemma for_route_interrupted routes :
  forall flight_data net w msg w',
    for_route self origin_airport date routes flight_data net w
    = (Raise (RequestException msg), w') ->
    exists front rq rp,
      exchanges w' = exchanges w ++ front ++ [(rq, rp)] /\
      all_answered front /\ failure_message rp = Some msg /\
      stdout w' = stdout w.
Proof.
  induction routes as [| route rest IH]; intros flight_data net w msg w' Hrun.
  - rewrite for_route_nil in Hrun. discriminate.
  - loop_cases Hrun; try discriminate.
    all: try (injection Hrun as <- <-;
              eexists [], _, _; cbn [logged exchanges stdout app];
              split; [reflexivity |]; split; [constructor |];
              split; [| reflexivity];
              cbn [failure_message];
              repeat match goal with
                     | E : status_error _ = _ |- _ => rewrite E; clear E
                     | E : body _ = _ |- _ => rewrite E; clear E
                     end; reflexivity).
    all: apply IH in Hrun; destruct Hrun as (front & rq & rp & Hex & Hall & Hmsg & Hout);
      cbn [logged exchanges stdout] in Hex, Hout;
      eexists (_ :: front), rq, rp; rewrite Hex, <- app_assoc; cbn [app];
      (split; [reflexivity |]); (split; [| split; assumption]);
      constructor; [| exact Hall];
      cbn [snd]; unfold failed, failure_message;
      repeat match goal with
             | E : status_error _ = None |- _ => rewrite E; clear E
             | E : body _ = Json _ |- _ => rewrite E; clear E
             end; reflexivity.
Qed.


(** The [try] block, when a request interrupts it. *)
Lemma get_all_flights_try_interrupted net w msg w1 :
  get_all_flights_try self origin_airport date net w = (Raise (RequestException msg), w1) ->
  exists front rq rp,
    exchanges w1 = exchanges w ++ front ++ [(rq, rp)] /\
    all_answered front /\ failure_message rp = Some msg /\
    stdout w1 = stdout w.
Proof.
  rewrite get_all_flights_try_unfold. cbv zeta. intros Hrun.
  repeat match type of Hrun with
         | context [match ?x with _ => _ end] => destruct x eqn:?
         end; try discriminate.
  all: try (injection Hrun as <- <-;
            eexists [], _, _; cbn [logged exchanges stdout app];
            split; [reflexivity |]; split; [constructor |];
            split; [| reflexivity];
              cbn [failure_message];
              repeat match goal with
                     | E : status_error _ = _ |- _ => rewrite E; clear E
                     | E : body _ = _ |- _ => rewrite E; clear E
                     end; reflexivity).
  apply for_route_interrupted in Hrun.
  destruct Hrun as (front & rq & rp & Hex & Hall & Hmsg & Hout).
  cbn [logged exchanges stdout] in Hex, Hout.
  eexists (_ :: front), rq, rp. rewrite Hex, <- app_assoc. cbn [app].
  split; [reflexivity |]. split; [| split; assumption].
  constructor; [| exact Hall].
  cbn [snd]. unfold failed, failure_message.
  repeat match goal with
         | E : status_error _ = None |- _ => rewrite E; clear E
         | E : body _ = Json _ |- _ => rewrite E; clear E
         end.
  reflexivity.
Qed.

Lemma failed_message (rp : reply) (msg : string) :
  failure_message rp = Some msg -> failed rp = true.
Proof.
  unfold failed. intros ->. reflexivity.
Qed.

Lemma all_answered_app_failed front rq rp :
  all_answered (front ++ [(rq, rp)]) -> failed rp = true -> False.
Proof.
  intros Hall Hfail. apply Forall_app in Hall. destruct Hall as [_ Hlast].
  apply Forall_inv in Hlast. cbn in Hlast. congruence.
Qed.

(** X2. The collection stops at the first failure: when a request fails it is
    the last request made, every request before it was answered, the call
    returns the empty list and prints one line, with the message of the
    failure. *)
Theorem failure_ends_the_collection net w :
  let run := get_all_flights self origin_airport date net w in
  Exists (fun x => failed (snd x) = true) (made w (snd run)) ->
  exists front rq rp msg,
    made w (snd run) = front ++ [(rq, rp)] /\
    all_answered front /\
    failure_message rp = Some msg /\
    fst run = Ret [] /\
    stdout (snd run) = stdout w ++ [("Error fetching flight data: " ++ msg)%string].
Proof.
  cbv zeta. rewrite get_all_flights_unfold.
  destruct (get_all_flights_try self origin_airport date net w) as [res w1] eqn:Hrun.
  destruct res as [rows | [msg | e]]; cbn [fst snd]; intros Hfail.
  - exfalso. apply get_all_flights_try_run in Hrun.
    destruct Hrun as (new & Hex & _ & _ & Hall & _).
    rewrite (made_app _ _ _ Hex) in Hfail. exact (answered_not_failed _ Hall Hfail).
  - apply get_all_flights_try_interrupted in Hrun.
    destruct Hrun as (front & rq & rp & Hex & Hall & Hmsg & Hout).
    exists front, rq, rp, msg.
    split; [apply made_app; exact Hex |].
    split; [exact Hall |]. split; [exact Hmsg |]. split; [reflexivity |].
    cbn [stdout]. rewrite Hout. reflexivity.
  - exfalso. apply get_all_flights_try_run in Hrun.
    destruct Hrun as (new & Hex & _ & _ & Hall).
    rewrite (made_app _ _ _ Hex) in Hfail. exact (answered_not_failed _ Hall Hfail).
Qed.

(** X3. A call in which no request fails, each one being answered with a
    status that is not an error and a body that is JSON, prints nothing and
    leaves the files alone, whether it returns rows or raises. *)
Theorem answered_run_is_silent net w :
  let run := get_all_flights self origin_airport date net w in
  all_answered (made w (snd run)) ->
  stdout (snd run) = stdout w /\ files (snd run) = files w.
Proof.
  cbv zeta. rewrite get_all_flights_unfold.
  destruct (get_all_flights_try self origin_airport date net w) as [res w1] eqn:Hrun.
  destruct res as [rows | [msg | e]]; cbn [fst snd]; intros Hall.
  - apply get_all_flights_try_run in Hrun.
    destruct Hrun as (new & _ & Hout & Hfiles & _). split; assumption.
  - exfalso. apply get_all_flights_try_interrupted in Hrun.
    destruct Hrun as (front & rq & rp & Hex & _ & Hmsg & _).
    assert (Hmade : made w (mkWorld (exchanges w1)
                (stdout w1 ++ [("Error fetching flight data: " ++ msg)%string]) (files w1))
            = front ++ [(rq, rp)]) by (apply made_app; exact Hex).
    rewrite Hmade in Hall.
    exact (all_answered_app_failed _ _ _ Hall (failed_message _ _ Hmsg)).
  - apply get_all_flights_try_run in Hrun.
    destruct Hrun as (new & _ & Hout & Hfiles & _). split; assumption.
Qed.

(** X4. The requests of a successful run: the routes request, then one
    flights request for each route, in the order of the routes, also for
    the routes that turn out to have no flights. *)
Theorem requests_of_a_successful_run net w rows :
  let run := get_all_flights self origin_airport date net w in
  let k := length (exchanges w) in
  let rq := routes_request self origin_airport in
  all_answered (made w (snd run)) ->
  fst run = Ret rows ->
  made w (snd run)
  = (rq, net k rq)
    :: map (flights_exchange self origin_airport date net)
           (numbered (S k) (routes_of self origin_airport net k)).
Proof.
  cbv zeta. rewrite get_all_flights_unfold.
  destruct (get_all_flights_try self origin_airport date net w) as [res w1] eqn:Hrun.
  destruct res as [rows' | [msg | e]]; cbn [fst snd]; intros Hall Hret; try discriminate.
  - apply made_app. clear Hall Hret.
    rewrite get_all_flights_try_unfold in Hrun. cbv zeta in Hrun. unfold routes_of.
    repeat match type of Hrun with
           | context [match ?x with _ => _ end] => destruct x eqn:?
           end; try discriminate.
    apply for_route_requests in Hrun. cbn [logged exchanges] in Hrun.
    rewrite length_app, Nat.add_comm in Hrun. cbn [length Nat.add] in Hrun.
    rewrite Hrun, <- app_assoc. reflexivity.
  - exfalso. apply get_all_flights_try_interrupted in Hrun.
    destruct Hrun as (front & rq & rp & Hex & _ & Hmsg & _).
    assert (Hmade : made w (mkWorld (exchanges w1)
                (stdout w1 ++ [("Error fetching flight data: " ++ msg)%string]) (files w1))
            = front ++ [(rq, rp)]) by (apply made_app; exact Hex).
    rewrite Hmade in Hall.
    exact (all_answered_app_failed _ _ _ Hall (failed_message _ _ Hmsg)).
Qed.

End CollectorTrace.

Section CollectorRowsMore.

Variable self : EasyJetCollector.t.
Variables origin_airport date : string.

Lemma row_for_distance net kr :
  row_distance (row_for self origin_airport date net kr)
  = match row_destination (row_for self origin_airport date net kr) with
    | VStr d => calculate_distance self origin_airport d
    | _ => 0%R
    end.
Proof.
  unfold row_distance, row_destination, row_for, expected_row. cbn [fst snd].
  unfold distance_to.
  destruct (destination_of (snd kr)); try reflexivity;
    destruct (known self origin_airport); reflexivity.
Qed.

(** X6. The distance of every row returned is the distance from the origin
    to the destination of that row, and 0.0 when the destination is not a
    string. *)
Theorem rows_carry_the_distance net w rows :
  let run := get_all_flights self origin_airport date net w in
  all_answered (made w (snd run)) ->
  fst run = Ret rows ->
  Forall (fun r =>
            row_distance r
            = match row_destination r with
              | VStr d => calculate_distance self origin_airport d
              | _ => 0%R
              end) rows.
Proof.
  intros run Hall Hret.
  destruct (successful_run self origin_airport date net w rows Hall Hret) as [_ ->].
  apply Forall_forall. intros r Hin. apply in_map_iff in Hin.
  destruct Hin as (kr & <- & _). apply row_for_distance.
Qed.

(** X7. For an origin that is not in the coordinate table every row returned
    has the distance 0.0. *)
Theorem unknown_origin_rows net w rows :
  let run := get_all_flights self origin_airport date net w in
  known self origin_airport = false ->
  all_answered (made w (snd run)) ->
  fst run = Ret rows ->
  Forall (fun r => row_distance r = 0%R) rows.
Proof.
  intros run Hunknown Hall Hret.
  destruct (successful_run self origin_airport date net w rows Hall Hret) as [_ ->].
  apply Forall_forall. intros r Hin. apply in_map_iff in Hin.
  destruct Hin as (kr & <- & _). rewrite row_for_distance.
  destruct (row_destination (row_for self origin_airport date net kr)); try reflexivity.
  unfold calculate_distance. rewrite (unknown_lookup _ _ Hunknown). reflexivity.
Qed.

(** X8. In a successful run the routes that give no row are those whose
    flights value fails the test [if flights:], an empty list but also a
    body without ['flights'], [null], 0, an empty string or an empty
    object; the others give one row each, in the order of the routes. *)
Theorem rows_skip_empty_flights net w rows :
  let run := get_all_flights self origin_airport date net w in
  let k := length (exchanges w) in
  let routes := numbered (S k) (routes_of self origin_airport net k) in
  all_answered (made w (snd run)) ->
  fst run = Ret rows ->
  rows = map (row_for self origin_airport date net)
             (filter (has_flights self origin_airport date net) routes) /\
  length rows
  = length routes
    - length (filter (fun kr => negb (has_flights self origin_airport date net kr)) routes).
Proof.
  intros run k routes Hall Hret.
  destruct (successful_run self origin_airport date net w rows Hall Hret) as [_ Hrows].
  fold k in Hrows. fold routes in Hrows.
  split; [exact Hrows |].
  rewrite Hrows, length_map.
  pose proof (filter_complement_length
                (fun kr => negb (has_flights self origin_airport date net kr)) routes) as Hc.
  rewrite <- Hc. f_equal. apply filter_ext. intros kr. rewrite negb_involutive. reflexivity.
Qed.

(** X9. A routes body without ['routes'], or with an empty list of routes,
    gives the empty list after the routes request alone, with nothing
    printed: the result is the one of a failed collection. *)
Theorem no_routes_gives_empty net w r entries :
  let rq := routes_request self origin_airport in
  net (length (exchanges w)) rq = Answered r ->
  status_error r = None ->
  body r = Json (VDict entries) ->
  lookup "routes" entries = None \/ lookup "routes" entries = Some (VList []) ->
  get_all_flights self origin_airport date net w = (Ret [], logged w rq (Answered r)).
Proof.
  intros rq Hnet Hstatus Hbody Hroutes.
  rewrite get_all_flights_unfold, get_all_flights_try_unfold. cbv zeta.
  fold rq. rewrite Hnet, Hstatus, Hbody. unfold dict_get.
  destruct Hroutes as [-> | ->]; reflexivity.
Qed.

End CollectorRowsMore.

(** ** The sort of [main] *)

Section SortByDistance.

Local Open Scope R_scope.

Lemma insert_permutation (r : row) (sorted : list row) :
  Permutation (insert r sorted) (r :: sorted).
Proof.
  induction sorted as [| s rest IH]; cbn [insert].
  - apply Permutation_refl.
  - destruct (Rlt_dec (fst (fst r)) (fst (fst s))).
    + apply Permutation_refl.
    + apply (perm_trans (perm_skip s IH)). apply perm_swap.
Qed.

Lemma insert_ascending (r : row) (sorted : list row) :
  ascending sorted -> ascending (insert r sorted).
Proof.
  unfold ascending. induction sorted as [| s rest IH]; intros Hs; cbn [insert].
  - constructor; constructor.
  - apply StronglySorted_inv in Hs. destruct Hs as [Hrest Hall].
    destruct (Rlt_dec (fst (fst r)) (fst (fst s))) as [Hlt | Hge].
    + constructor.
      * constructor; assumption.
      * constructor.
        -- unfold row_distance. lra.
        -- apply Forall_impl with (2 := Hall). unfold row_distance. intros x Hx. lra.
    + constructor.
      * apply IH. exact Hrest.
      * apply (Permutation_Forall (Permutation_sym (insert_permutation r rest))).
        constructor; [unfold row_distance; lra | exact Hall].
Qed.

(** A row inserted among sorted rows goes after the rows of its distance. *)
Lemma insert_at_distance (d : R) (r : row) (sorted : list row) :
  ascending sorted ->
  at_distance d (insert r sorted) = at_distance d sorted ++ at_distance d [r].
Proof.
  unfold ascending, at_distance. induction sorted as [| s rest IH]; intros Hs; cbn [insert].
  - reflexivity.
  - apply StronglySorted_inv in Hs. destruct Hs as [Hrest Hall].
    destruct (Rlt_dec (fst (fst r)) (fst (fst s))) as [Hlt | Hge].
    + cbn [filter app].
      destruct (Req_dec_T (row_distance r) d) as [Hr | Hr];
        [| rewrite app_nil_r; reflexivity].
      assert (Hnone : filter (fun x => if Req_dec_T (row_distance x) d then true else false)
                             (s :: rest) = []).
      { assert (Hfa : Forall (fun x => row_distance x <> d) (s :: rest)).
        { constructor.
          - unfold row_distance in *. lra.
          - apply Forall_impl with (2 := Hall). unfold row_distance in *. intros x Hx. lra. }
        clear - Hfa. induction Hfa as [| x l Hx _ IHl]; [reflexivity |].
        cbn [filter]. destruct (Req_dec_T (row_distance x) d); [contradiction | exact IHl]. }
      cbn [filter] in Hnone. rewrite Hnone. reflexivity.
    + cbn [filter]. rewrite (IH Hrest). cbn [filter].
      destruct (Req_dec_T (row_distance s) d); reflexivity.
Qed.

Lemma sort_loop (rows : list row) :
  forall sorted,
    ascending sorted ->
    let result := fold_left (fun sorted r => insert r sorted) rows sorted in
    Permutation result (sorted ++ rows) /\
    ascending result /\
    forall d, at_distance d result = at_distance d sorted ++ at_distance d rows.
Proof.
  induction rows as [| r rest IH]; intros sorted Hs; cbn [fold_left].
  - rewrite app_nil_r. repeat split; [apply Permutation_refl | exact Hs |].
    intros d. unfold at_distance. cbn [filter]. rewrite app_nil_r. reflexivity.
  - destruct (IH (insert r sorted) (insert_ascending r sorted Hs)) as (Hp & Ha & Hd).
    cbv zeta in *. repeat split.
    + apply (perm_trans Hp).
      apply (perm_trans (Permutation_app_tail rest (insert_permutation r sorted))).
      cbn [app]. apply Permutation_middle.
    + exact Ha.
    + intros d. rewrite Hd, (insert_at_distance d r sorted Hs), <- app_assoc.
      f_equal. unfold at_distance. cbn [filter app].
      destruct (Req_dec_T (row_distance r) d); reflexivity.
Qed.

(** X10. The sort of [main] keeps the rows, puts them in ascending order of
    distance, and leaves rows of equal distance in the order they had. *)
Theorem sort_by_distance_sorts (rows : list row) :
  Permutation (sort_by_distance rows) rows /\
  ascending (sort_by_distance rows) /\
  forall d, at_distance d (sort_by_distance rows) = at_distance d rows.
Proof.
  unfold sort_by_distance.
  destruct (sort_loop rows [] (SSorted_nil _)) as (Hp & Ha & Hd).
  cbv zeta in *. cbn [app] in Hp. repeat split; [exact Hp | exact Ha |].
  intros d. rewrite Hd. reflexivity.
Qed.

End SortByDistance.

(** ** The run of [main] *)

Section MainRun.

Variable str_float : R -> string.
Variable str_value : value -> string.

(** Printing the table touches neither the files nor the log of requests,
    also when a row cannot be formatted. *)
Lemma print_rows_keeps_files (flights : list row) :
  forall net w,
    files (snd (print_rows str_value flights net w)) = files w.
Proof.
  induction flights as [| [[distance destination] price] rest IH]; intros net w.
  - reflexivity.
  - cbn [print_rows]. unfold bind at 1, lift at 1.
    destruct (table_line str_value distance destination price) as [line | e];
      [| reflexivity].
    unfold ret at 1.
    rewrite (bind_returns _ _ _ _ _ _ (print_run line net w)).
    rewrite IH. reflexivity.
Qed.

Lemma print_rows_prints (flights : list row) :
  forall net w,
    Forall (fun r => exists line,
                table_line str_value (row_distance r) (row_destination r) (row_price r)
                = Ok line) flights ->
    print_rows str_value flights net w
    = (Ret tt, mkWorld (exchanges w)
                       (stdout w ++ map (printed_line str_value) flights)
                       (files w)).
Proof.
  induction flights as [| [[distance destination] price] rest IH]; intros net w Hall.
  - cbn. rewrite app_nil_r. destruct w; reflexivity.
  - apply Forall_cons_iff in Hall. destruct Hall as [[line Hline] Hrest].
    cbn [row_distance row_destination row_price fst snd] in Hline.
    cbn [print_rows]. unfold bind at 1, lift at 1. rewrite Hline. unfold ret at 1.
    rewrite (bind_returns _ _ _ _ _ _ (print_run line net w)).
    assert (Hpl : printed_line str_value (distance, destination, price) = line).
    { unfold printed_line. cbn [row_distance row_destination row_price fst snd].
      rewrite Hline. reflexivity. }
    rewrite (IH _ _ Hrest). cbn [exchanges stdout files map].
    rewrite Hpl, <- app_assoc. reflexivity.
Qed.

(** [main], once the collection has returned its rows. *)
Lemma main_after_collection net w rows w1 :
  get_all_flights collector "LGW" "2024-12-01" net w = (Ret rows, w1) ->
  exists w2,
    file_content "easyjet_flights.csv" w2
    = Some (text_of (map (csv_line str_float str_value)
                         (header :: map cells (sort_by_distance rows)))) /\
    exchanges w2 = exchanges w1 /\
    stdout w2 = stdout w1 ++ table_heading /\
    main str_float str_value net w = print_rows str_value (sort_by_distance rows) net w2.
Proof.
  intros Hrun. unfold main. cbv zeta. fold collector.
  rewrite (bind_returns _ _ net w rows w1 Hrun).
  destruct (save_to_csv_run str_float str_value (map cells (sort_by_distance rows))
              "easyjet_flights.csv" net w1) as (Hret & Hfile & Hex & Hout).
  destruct (save_to_csv str_float str_value (map cells (sort_by_distance rows))
              "easyjet_flights.csv" net w1) as [r2 w2] eqn:Hsave.
  cbn [fst snd] in Hret, Hfile, Hex, Hout. subst r2.
  rewrite (bind_returns _ _ net w1 tt w2 Hsave).
  rewrite (bind_returns _ _ _ _ _ _ (print_run _ net _)).
  rewrite (bind_returns _ _ _ _ _ _ (print_run _ net _)).
  rewrite (bind_returns _ _ _ _ _ _ (print_run _ net _)).
  eexists. split; [| split; [| split; [| reflexivity]]].
  - unfold file_content in *. cbn [files]. exact Hfile.
  - cbn [exchanges]. exact Hex.
  - cbn [stdout]. rewrite Hout, <- !app_assoc. reflexivity.
Qed.

(** X11. Whenever the collection returns, [main] leaves in
    [easyjet_flights.csv] the header and the rows in ascending order of
    distance; the file is written before the table is printed, so it is
    complete also when a row cannot be printed. *)
Theorem main_writes_sorted_csv net w rows :
  let header_text := ("Distance (km),Destination,Lowest Price" ++ lineterminator)%string in
  fst (get_all_flights collector "LGW" "2024-12-01" net w) = Ret rows ->
  file_content "easyjet_flights.csv" (snd (main str_float str_value net w))
  = Some (header_text
          ++ text_of (map (csv_line str_float str_value)
                          (map cells (sort_by_distance rows))))%string /\
  ascending (sort_by_distance rows) /\
  Permutation (sort_by_distance rows) rows.
Proof.
  intros header_text Hret.
  destruct (get_all_flights collector "LGW" "2024-12-01" net w) as [res w1] eqn:Hrun.
  cbn [fst] in Hret. subst res.
  destruct (main_after_collection net w rows w1 Hrun) as (w2 & Hfile & _ & _ & Hmain).
  destruct (sort_by_distance_sorts rows) as (Hperm & Hasc & _).
  split; [| split; assumption].
  rewrite Hmain. unfold file_content in *. rewrite print_rows_keeps_files.
  rewrite Hfile. reflexivity.
Qed.


Lemma bind_raises {A B : Type} (c : M A) (k : A -> M B) net w e w' :
  c net w = (Raise e, w') -> bind c k net w = (Raise e, w').
Proof. intros H. unfold bind. rewrite H. reflexivity. Qed.

(** X13. When the collection raises, [main] ends with the same exception
    before it creates the file or prints anything. *)
Theorem main_stops_when_collection_raises net w x :
  fst (get_all_flights collector "LGW" "2024-12-01" net w) = Raise x ->
  fst (main str_float str_value net w) = Raise x /\
  files (snd (main str_float str_value net w)) = files w /\
  stdout (snd (main str_float str_value net w)) = stdout w.
Proof.
  intros Hraise.
  destruct (get_all_flights collector "LGW" "2024-12-01" net w) as [res w1] eqn:Hrun.
  cbn [fst] in Hraise. subst res.
  unfold main. cbv zeta. fold collector.
  rewrite (bind_raises _ _ net w x w1 Hrun). cbn [fst snd].
  split; [reflexivity |].
  rewrite get_all_flights_unfold in Hrun.
  destruct (get_all_flights_try collector "LGW" "2024-12-01" net w) as [res w2] eqn:Htry.
  apply get_all_flights_try_run in Htry.
  destruct Htry as (new & _ & Hout & Hfiles & _).
  destruct res as [rows | [msg | e]]; try discriminate.
  injection Hrun as _ <-. split; assumption.
Qed.

End MainRun.

(** ** Fares that are all missing, and the requests the collector sends *)

Section MissingFares.

(** X14. A destination none of whose flights quotes a fare gets the price
    [float('inf')], which the table prints as [inf] and not as a number
    with two decimals. *)
Theorem all_fares_missing (flights : list value) :
  flights <> [] ->
  Forall (fun flight => quoted_fare flight = Some Inf) flights ->
  lowest_fare (VList flights) = Ok (VNum Inf) /\
  format_price (VNum Inf) = Ok "  inf".
Proof.
  intros Hne Hall. split; [| reflexivity].
  assert (Hxs : map quoted_fare flights = map Some (map (fun _ => Inf) flights)).
  { rewrite map_map. apply map_ext_in. intros f Hin.
    rewrite Forall_forall in Hall. apply Hall. exact Hin. }
  destruct (lowest_fare_minimum flights _ Hne Hxs) as (m & Hlow & Hin & _).
  apply in_map_iff in Hin. destruct Hin as (f & <- & _). exact Hlow.
Qed.

Lemma all_fares_missing_witness :
  let flights := [VDict []; VDict [("pricing", VDict [])]] in
  Forall (fun flight => quoted_fare flight = Some Inf) flights /\
  lowest_fare (VList flights) = Ok (VNum Inf) /\
  format_price (VNum Inf) = Ok "  inf".
Proof.
  intros flights.
  assert (H : Forall (fun flight => quoted_fare flight = Some Inf) flights)
    by (repeat constructor).
  split; [exact H |].
  apply (all_fares_missing flights); [discriminate | exact H].
Defined.

End MissingFares.

(** X16. A price of magnitude [2 ^ 1024] or more, which only an [int] can
    have, is not printed: its conversion to a float raises [OverflowError],
    and so does the line of the table. *)
Theorem huge_price_is_not_printed (str_value : value -> string) (distance : R)
    (destination : string) (q : Q) :
  (2 ^ 1024 <= Qabs q)%Q ->
  format_price (VNum (Fin q)) = Err OverflowError /\
  table_line str_value distance (VStr destination) (VNum (Fin q)) = Err OverflowError.
Proof.
  intros Hbig.
  assert (Hprice : format_price (VNum (Fin q)) = Err OverflowError).
  { unfold format_price. cbn [as_number number_2f].
    rewrite (float_of_overflow q Hbig). reflexivity. }
  split; [exact Hprice |].
  unfold table_line. cbn [format_destination]. rewrite Hprice. reflexivity.
Qed.

Lemma huge_price_is_not_printed_witness :
  (2 ^ 1024 <= Qabs (inject_Z (10 ^ 400)))%Q /\
  table_line (fun _ => "") 0 (VStr "BCN") (VNum (Fin (inject_Z (10 ^ 400))))
  = Err OverflowError.
Proof.
  assert (Hbig : (2 ^ 1024 <= Qabs (inject_Z (10 ^ 400)))%Q).
  { apply Qle_bool_iff. vm_compute. reflexivity. }
  split; [exact Hbig |].
  exact (proj2 (huge_price_is_not_printed (fun _ => "") 0 "BCN" _ Hbig)).
Defined.

Section RequestsSent.

Variable self : EasyJetCollector.t.
Variables origin_airport date : string.

Ltac loop_cases H :=
  rewrite for_route_cons in H; cbv zeta in H;
  repeat match type of H with
         | context [match ?x with _ => _ end] => destruct x eqn:?
         | context [if ?x then _ else _] => destruct x eqn:?
         end.

(** However the loop ends, it has only made flights requests. *)
Lemma for_route_sends_flights_requests routes :
  forall flight_data net w res w',
    for_route self origin_airport date routes flight_data net w = (res, w') ->
    exists new,
      exchanges w' = exchanges w ++ new /\
      Forall (fun x => exists destination,
                  fst x = flights_request self origin_airport destination date) new.
Proof.
  induction routes as [| route rest IH]; intros flight_data net w res w' Hrun.
  - rewrite for_route_nil in Hrun. injection Hrun as _ <-.
    exists []. rewrite app_nil_r. split; [reflexivity | constructor].
  - loop_cases Hrun.
    all: try (injection Hrun as _ <-;
              first [ exists []; rewrite app_nil_r; split; [reflexivity | constructor]
                    | eexists [_]; cbn [logged exchanges]; split; [reflexivity |];
                      constructor; [eexists; reflexivity | constructor] ]).
    all: apply IH in Hrun; destruct Hrun as (new & Hex & Hall);
      cbn [logged exchanges] in Hex;
      eexists (_ :: new); rewrite Hex, <- app_assoc; split; [reflexivity |];
      constructor; [eexists; reflexivity | exact Hall].
Qed.

Lemma get_all_flights_sends net w :
  Forall (fun x =>
            fst x = routes_request self origin_airport \/
            exists destination,
              fst x = flights_request self origin_airport destination date)
         (made w (snd (get_all_flights self origin_airport date net w))).
Proof.
  assert (Htry : forall res w1,
            get_all_flights_try self origin_airport date net w = (res, w1) ->
            Forall (fun x =>
                      fst x = routes_request self origin_airport \/
                      exists destination,
                        fst x = flights_request self origin_airport destination date)
                   (made w w1)).
  { intros res w1 Hrun.
    rewrite get_all_flights_try_unfold in Hrun. cbv zeta in Hrun.
    repeat match type of Hrun with
           | context [match ?x with _ => _ end] => destruct x eqn:?
           end.
    all: try (injection Hrun as _ <-;
              erewrite made_app by (cbn [logged exchanges]; reflexivity);
              constructor; [left; reflexivity | constructor]).
    apply for_route_sends_flights_requests in Hrun.
    destruct Hrun as (new & Hex & Hall). cbn [logged exchanges] in Hex.
    erewrite made_app by (rewrite Hex, <- app_assoc; reflexivity).
    constructor; [left; reflexivity |].
    apply Forall_impl with (2 := Hall). intros x Hx. right. exact Hx. }
  rewrite get_all_flights_unfold.
  destruct (get_all_flights_try self origin_airport date net w) as [res w1] eqn:Hrun.
  specialize (Htry res w1 eq_refl).
  destruct res as [rows | [msg | e]]; exact Htry.
Qed.

End RequestsSent.

(** X15. Every request of a collector built by [__init__] goes to the routes
    or to the flights endpoint of the base URL and carries the bearer token,
    the client id and the [Accept] header; a flights request asks for the
    origin, the date and one adult. *)
Theorem requests_carry_credentials (api_key client_id origin_airport date : string) net w :
  let self := __init__ api_key client_id in
  Forall (fun x =>
            Effects.headers (fst x)
            = [("Authorization", ("Bearer " ++ api_key)%string);
               ("X-Client-ID", client_id);
               ("Accept", "application/json")] /\
            ((url (fst x) = "https://api.easyjet.com/v1/routes" /\
              params (fst x) = [("departure", VStr origin_airport)]) \/
             (url (fst x) = "https://api.easyjet.com/v1/flights" /\
              exists destination,
                params (fst x) = [("origin", VStr origin_airport);
                                  ("destination", destination);
                                  ("outboundDate", VStr date);
                                  ("adult", VNum (Fin 1%Q))])))
         (made w (snd (get_all_flights (__init__ api_key client_id)
                         origin_airport date net w))).
Proof.
  intros self.
  apply Forall_impl with (2 := get_all_flights_sends self origin_airport date net w).
  intros x [-> | [destination ->]].
  - split; [reflexivity |]. left. split; reflexivity.
  - split; [reflexivity |]. right. split; [reflexivity |]. exists destination. reflexivity.
Qed.

(** ** More sample runs *)

(** The request for Paris fails: it is the last request, and one line is
    printed. *)
Lemma failure_ends_the_collection_witness :
  let run := get_all_flights collector "LGW" "2024-12-01" net_fails_late initial in
  Exists (fun x => failed (snd x) = true) (made initial (snd run)) /\
  fst run = Ret [] /\
  stdout (snd run) = ["Error fetching flight data: connection reset"].
Proof.
  intros run.
  assert (H : Exists (fun x => failed (snd x) = true) (made initial (snd run))).
  { lazy. apply Exists_cons_tl, Exists_cons_tl, Exists_cons_hd. reflexivity. }
  split; [exact H |].
  destruct (failure_ends_the_collection collector "LGW" "2024-12-01" net_fails_late initial H)
    as (front & rq & rp & msg & _ & _ & _ & Hret & _).
  split; [exact Hret | reflexivity].
Defined.

Lemma answered_run_is_silent_witness :
  let run := get_all_flights collector "LGW" "2024-12-01" net_sample initial in
  all_answered (made initial (snd run)) /\
  stdout (snd run) = [] /\ files (snd run) = [].
Proof.
  intros run.
  assert (H : all_answered (made initial (snd run))).
  { lazy -[calculate_distance]. repeat constructor. }
  split; [exact H |].
  exact (answered_run_is_silent collector "LGW" "2024-12-01" net_sample initial H).
Defined.

Lemma requests_of_a_successful_run_witness :
  let run := get_all_flights collector "LGW" "2024-12-01" net_sample initial in
  let rows := [(calculate_distance collector "LGW" "BCN", VStr "BCN", VNum (Fin 80%Q))] in
  let rq := routes_request collector "LGW" in
  all_answered (made initial (snd run)) /\
  fst run = Ret rows /\
  made initial (snd run)
  = (rq, net_sample 0 rq)
    :: map (flights_exchange collector "LGW" "2024-12-01" net_sample)
           (numbered 1 (routes_of collector "LGW" net_sample 0)).
Proof.
  intros run rows rq.
  assert (Hall : all_answered (made initial (snd run))).
  { lazy -[calculate_distance]. repeat constructor. }
  assert (Hret : fst run = Ret rows) by (lazy -[calculate_distance]; reflexivity).
  split; [exact Hall |]. split; [exact Hret |].
  exact (requests_of_a_successful_run collector "LGW" "2024-12-01" net_sample initial rows
           Hall Hret).
Defined.

Lemma guarded_min_is_not_empty_witness :
  let flights := VList [flight_at 80%Q; VNone] in
  truthy flights = true /\
  lowest_fare flights = Err AttributeError /\
  AttributeError <> ValueError /\
  (AttributeError = AttributeError \/ AttributeError = TypeError).
Proof.
  intros flights.
  assert (Htruthy : truthy flights = true) by reflexivity.
  assert (Hlow : lowest_fare flights = Err AttributeError) by reflexivity.
  split; [exact Htruthy |]. split; [exact Hlow |].
  exact (guarded_min_is_not_empty flights AttributeError Htruthy Hlow).
Defined.

Lemma rows_carry_the_distance_witness :
  let run := get_all_flights collector "LGW" "2024-12-01" net_sample initial in
  let rows := [(calculate_distance collector "LGW" "BCN", VStr "BCN", VNum (Fin 80%Q))] in
  all_answered (made initial (snd run)) /\
  fst run = Ret rows /\
  Forall (fun r =>
            row_distance r
            = match row_destination r with
              | VStr d => calculate_distance collector "LGW" d
              | _ => 0%R
              end) rows.
Proof.
  intros run rows.
  assert (Hall : all_answered (made initial (snd run))).
  { lazy -[calculate_distance]. repeat constructor. }
  assert (Hret : fst run = Ret rows) by (lazy -[calculate_distance]; reflexivity).
  split; [exact Hall |]. split; [exact Hret |].
  exact (rows_carry_the_distance collector "LGW" "2024-12-01" net_sample initial rows
           Hall Hret).
Defined.

Lemma unknown_origin_rows_witness :
  let run := get_all_flights collector "MAD" "2024-12-01" net_sample initial in
  let rows := [(calculate_distance collector "MAD" "BCN", VStr "BCN", VNum (Fin 80%Q))] in
  known collector "MAD" = false /\
  all_answered (made initial (snd run)) /\
  fst run = Ret rows /\
  Forall (fun r => row_distance r = 0%R) rows.
Proof.
  intros run rows.
  assert (Hunknown : known collector "MAD" = false) by reflexivity.
  assert (Hall : all_answered (made initial (snd run))).
  { lazy -[calculate_distance]. repeat constructor. }
  assert (Hret : fst run = Ret rows) by (lazy -[calculate_distance]; reflexivity).
  split; [exact Hunknown |]. split; [exact Hall |]. split; [exact Hret |].
  exact (unknown_origin_rows collector "MAD" "2024-12-01" net_sample initial rows
           Hunknown Hall Hret).
Defined.

Lemma rows_skip_empty_flights_witness :
  let run := get_all_flights collector "LGW" "2024-12-01" net_sample initial in
  let rows := [(calculate_distance collector "LGW" "BCN", VStr "BCN", VNum (Fin 80%Q))] in
  let routes := numbered 1 (routes_of collector "LGW" net_sample 0) in
  all_answered (made initial (snd run)) /\
  fst run = Ret rows /\
  length rows
  = length routes
    - length (filter (fun kr => negb (has_flights collector "LGW" "2024-12-01" net_sample kr))
                     routes).
Proof.
  intros run rows routes.
  assert (Hall : all_answered (made initial (snd run))).
  { lazy -[calculate_distance]. repeat constructor. }
  assert (Hret : fst run = Ret rows) by (lazy -[calculate_distance]; reflexivity).
  split; [exact Hall |]. split; [exact Hret |].
  exact (proj2 (rows_skip_empty_flights collector "LGW" "2024-12-01" net_sample initial rows
                  Hall Hret)).
Defined.

Lemma no_routes_gives_empty_witness :
  let rq := routes_request collector "LGW" in
  net_no_routes 0 rq = answer (VDict []) /\
  get_all_flights collector "LGW" "2024-12-01" net_no_routes initial
  = (Ret [], logged initial rq (answer (VDict []))).
Proof.
  intros rq. split; [reflexivity |].
  apply (no_routes_gives_empty collector "LGW" "2024-12-01" net_no_routes initial
           (mkResponse 200 "OK" (Json (VDict []))) []); try reflexivity.
  left. reflexivity.
Defined.

Lemma main_writes_sorted_csv_witness :
  let rows := [(calculate_distance collector "LGW" "BCN", VStr "BCN", VNum (Fin 80%Q))] in
  let str_float := fun _ : R => "1109.59" in
  let str_value := fun _ : value => "80.0" in
  fst (get_all_flights collector "LGW" "2024-12-01" net_sample initial) = Ret rows /\
  file_content "easyjet_flights.csv" (snd (main str_float str_value net_sample initial))
  = Some (("Distance (km),Destination,Lowest Price" ++ lineterminator)
          ++ text_of (map (csv_line str_float str_value)
                          (map cells (sort_by_distance rows))))%string.
Proof.
  intros rows str_float str_value.
  assert (Hret : fst (get_all_flights collector "LGW" "2024-12-01" net_sample initial)
                 = Ret rows) by (lazy -[calculate_distance]; reflexivity).
  split; [exact Hret |].
  exact (proj1 (main_writes_sorted_csv str_float str_value net_sample initial rows Hret)).
Defined.


Lemma main_stops_when_collection_raises_witness :
  let x := BuiltinError (KeyError "destination") in
  fst (get_all_flights collector "LGW" "2024-12-01" net_bad_route initial) = Raise x /\
  fst (main (fun _ => "") (fun _ => "") net_bad_route initial) = Raise x /\
  files (snd (main (fun _ => "") (fun _ => "") net_bad_route initial)) = [] /\
  stdout (snd (main (fun _ => "") (fun _ => "") net_bad_route initial)) = [].
Proof.
  intros x.
  assert (H : fst (get_all_flights collector "LGW" "2024-12-01" net_bad_route initial)
              = Raise x) by (lazy -[calculate_distance]; reflexivity).
  split; [exact H |].
  exact (main_stops_when_collection_raises (fun _ => "") (fun _ => "")
           net_bad_route initial x H).
Defined.
